(** * Temporal sagas: infra provisioning and the CI/CD pipeline

    A shallow embedding of [infra_workflow.py] and [cicd_workflow.py].

    The two workflow classes are sequential programs over a mutable [self];
    every [await workflow.execute_activity(...)] hands control to the
    orchestration runtime, which answers with the activity's result or with
    its final failure (after the attached retry policy is exhausted).  The
    workflows are therefore modelled in a small monad that threads [self],
    reads the history of events so far, emits events, and may raise.  The
    runtime and the activity workers are an environment ([Env]) the
    workflow is parametric in; the mocked activities of the source are one
    such environment. *)

From stdpp Require Import base option list strings gmap.

Set Default Proof Using "Type".

(** ** Python exceptions and dictionary values *)

Inductive exn : Type :=
  | ValueError (msg : string)
  | RuntimeError (msg : string)
  | AttributeError (msg : string)
  | ActivityError (msg : string).

(** [str(e)], as interpolated by the f-strings of the source. *)
Definition str (e : exn) : string :=
  match e with
  | ValueError m | RuntimeError m | AttributeError m | ActivityError m => m
  end.

(** Values stored in the dictionaries the queries return. *)
Inductive pyval : Type :=
  | PStr (s : string)
  | PBool (b : bool).

(** [temporalio.common.RetryPolicy]; intervals in seconds.  Fields the
    source leaves out take the library defaults ([maximum_attempts = 0]
    meaning no limit). *)
Record RetryPolicy : Type := mkRetryPolicy {
  initial_interval : nat;
  backoff_coefficient : nat;
  maximum_interval : option nat;
  maximum_attempts : nat
}.

(** What the runtime answers to one activity invocation. *)
Inductive answer (A : Type) : Type :=
  | Done (a : A)
  | Fails (e : exn).
Arguments Done {A} a.
Arguments Fails {A} e.

(** ** The workflow monad *)

Inductive outcome (A : Type) : Type :=
  | Ok (a : A)           (* normal completion *)
  | Raise (e : exn)      (* an exception propagates *)
  | Parked               (* blocked in [wait_condition], no signal will come *)
  | OutOfFuel.           (* the model's loop bound was reached *)
Arguments Ok {A} a.
Arguments Raise {A} e.
Arguments Parked {A}.
Arguments OutOfFuel {A}.

Section Monad.
Context {S E : Type}.

(** A computation reads the events that happened before it (oldest
    first) and the current [self]; it yields an outcome, the new [self]
    and the events it emitted (oldest first). *)
Definition M (A : Type) : Type := list E → S → outcome A * S * list E.

Definition ret {A} (a : A) : M A := λ _ s, (Ok a, s, []).

Definition bind {A B} (m : M A) (k : A → M B) : M B := λ h s,
  match m h s with
  | (Ok a, s1, ev1) =>
      match k a (h ++ ev1) s1 with
      | (r, s2, ev2) => (r, s2, ev1 ++ ev2)
      end
  | (Raise e, s1, ev1) => (Raise e, s1, ev1)
  | (Parked, s1, ev1) => (Parked, s1, ev1)
  | (OutOfFuel, s1, ev1) => (OutOfFuel, s1, ev1)
  end.

Definition raise {A} (e : exn) : M A := λ _ s, (Raise e, s, []).

(** [try: m  except Exception as e: handler e] *)
Definition try_except {A} (m : M A) (handler : exn → M A) : M A := λ h s,
  match m h s with
  | (Raise e, s1, ev1) =>
      match handler e (h ++ ev1) s1 with
      | (r, s2, ev2) => (r, s2, ev1 ++ ev2)
      end
  | other => other
  end.

Definition get : M S := λ _ s, (Ok s, s, []).
Definition modify (f : S → S) : M unit := λ _ s, (Ok tt, f s, []).
Definition emit (e : E) : M unit := λ _ s, (Ok tt, s, [e]).
Definition history : M (list E) := λ h s, (Ok h, s, []).
Definition parked {A} : M A := λ _ s, (Parked, s, []).
Definition out_of_fuel {A} : M A := λ _ s, (OutOfFuel, s, []).
End Monad.
Arguments M : clear implicits.

Declare Scope wf_scope.
Delimit Scope wf_scope with wf.
Notation "x <- m ;; k" := (bind m (λ x, k))
  (at level 100, m at next level, right associativity) : wf_scope.
Notation "m ;;; k" := (bind m (λ _, k))
  (at level 100, right associativity) : wf_scope.
Open Scope wf_scope.

(** Accessors on the triple a computation yields. *)
Definition result_of {A S E} (x : outcome A * S * list E) : outcome A := x.1.1.
Definition self_of {A S E} (x : outcome A * S * list E) : S := x.1.2.
Definition events_of {A S E} (x : outcome A * S * list E) : list E := x.2.

(** * The infra provisioning saga ([infra_workflow.py]) *)

Module Infra.

(** ** Models *)

Inductive InfraStatus : Type :=
  | PENDING | INITIALIZING | PLANNING | PROVISIONING
  | VALIDATING | READY | FAILED | DESTROYING.

(** [InfraStatus.value]: the enum is a [str] enum. *)
Definition value (s : InfraStatus) : string :=
  match s with
  | PENDING => "PENDING" | INITIALIZING => "INITIALIZING"
  | PLANNING => "PLANNING" | PROVISIONING => "PROVISIONING"
  | VALIDATING => "VALIDATING" | READY => "READY"
  | FAILED => "FAILED" | DESTROYING => "DESTROYING"
  end.

Global Instance InfraStatus_eq_dec : EqDecision InfraStatus.
Proof. solve_decision. Defined.

Record InfraInput : Type := mkInfraInput {
  project_name : string;
  region : string;
  environment : string;
  vm_size : string;
  vnet_address_space : string;
  subnet_prefix : string;
  admin_username : string
}.

(** The dataclass defaults: [InfraInput(project_name=p, environment=e)]. *)
Definition InfraInput_default (p : string) : InfraInput :=
  mkInfraInput p "uksouth" "dev" "Standard_B2s" "10.0.0.0/16" "10.0.1.0/24"
               "azureadmin".

Record TerraformPlanResult : Type := mkTerraformPlanResult {
  has_changes : bool;
  resources_to_add : nat;
  plan_file : string
}.

Record InfraOutput : Type := mkInfraOutput {
  resource_group_name : string;
  vnet_name : string;
  nsg_name : string;
  vm_name : string;
  vm_public_ip : string;
  vm_private_ip : string;
  out_admin_username : string   (* [InfraOutput.admin_username] *)
}.

(** ** Activities, as mocked in the source *)

Definition terraform_init (input : InfraInput) : string := "./terraform".

Definition terraform_plan (input : InfraInput) : TerraformPlanResult :=
  mkTerraformPlanResult true 7 "./terraform/tfplan".

Definition terraform_apply (input : InfraInput) (plan_file : string)
  : InfraOutput :=
  let rg := "rg-" +:+ project_name input +:+ "-" +:+ environment input in
  {| resource_group_name := rg;
     vnet_name := "vnet-" +:+ project_name input +:+ "-" +:+ environment input;
     nsg_name := "nsg-" +:+ project_name input +:+ "-" +:+ environment input;
     vm_name := "vm-" +:+ project_name input +:+ "-" +:+ environment input;
     vm_public_ip := "20.185.72.14";
     vm_private_ip := "10.0.1.4";
     out_admin_username := admin_username input |}.

Definition validate_infra (output : InfraOutput) : bool := true.

Definition terraform_destroy (input : InfraInput) : unit := tt.

(** ** Events of a run *)

(** An activity invocation: the activity and its arguments. *)
Inductive Activity : Type :=
  | TerraformInit (input : InfraInput)
  | TerraformPlan (input : InfraInput)
  | TerraformApply (input : InfraInput) (plan_file : string)
  | ValidateInfra (output : InfraOutput)
  | TerraformDestroy (input : InfraInput).

Inductive Value : Type :=
  | VStr (s : string)
  | VPlan (p : TerraformPlanResult)
  | VOutput (o : InfraOutput)
  | VBool (b : bool)
  | VNone.

Inductive Event : Type :=
  | Scheduled (a : Activity) (start_to_close_timeout : nat)
              (retry_policy : RetryPolicy)
  | Completed (a : Activity) (v : Value)
  | Failed (a : Activity) (e : exn)
  | StatusSet (s : InfraStatus)       (* [self._status = s] *)
  | OutputSet (o : InfraOutput)       (* [self._output = o] *)
  | AppliedSet (b : bool).            (* [self._applied = b] *)

(** The runtime and the workers: the final answer to each invocation,
    which may depend on everything that happened before. *)
Record Env : Type := mkEnv {
  exec_terraform_init : list Event → InfraInput → answer string;
  exec_terraform_plan : list Event → InfraInput → answer TerraformPlanResult;
  exec_terraform_apply : list Event → InfraInput → string → answer InfraOutput;
  exec_validate_infra : list Event → InfraOutput → answer bool;
  exec_terraform_destroy : list Event → InfraInput → answer unit
}.

(** The environment in which every activity runs the mocked code. *)
Definition mock_env : Env :=
  {| exec_terraform_init := λ _ i, Done (terraform_init i);
     exec_terraform_plan := λ _ i, Done (terraform_plan i);
     exec_terraform_apply := λ _ i p, Done (terraform_apply i p);
     exec_validate_infra := λ _ o, Done (validate_infra o);
     exec_terraform_destroy := λ _ i, Done (terraform_destroy i) |}.

(** ** The workflow object *)

Record Workflow : Type := mkWorkflow {
  _status : InfraStatus;
  _output : option InfraOutput;
  _applied : bool
}.

(** [__init__] *)
Definition init : Workflow := mkWorkflow PENDING None false.

Definition W : Type → Type := M Workflow Event.

Definition set_status (st : InfraStatus) : W unit :=
  modify (λ s, mkWorkflow st (_output s) (_applied s)) ;;;
  emit (StatusSet st).

Definition set_output (o : InfraOutput) : W unit :=
  modify (λ s, mkWorkflow (_status s) (Some o) (_applied s)) ;;;
  emit (OutputSet o).

Definition set_applied (b : bool) : W unit :=
  modify (λ s, mkWorkflow (_status s) (_output s) b) ;;;
  emit (AppliedSet b).

(** [await workflow.execute_activity(a, ..., start_to_close_timeout=t,
    retry_policy=p)]: the invocation is recorded, the runtime answers. *)
Definition execute_activity {A} (a : Activity) (t : nat) (p : RetryPolicy)
    (runtime : list Event → answer A) (inj : A → Value) : W A :=
  emit (Scheduled a t p) ;;;
  h <- history ;;
  match runtime h with
  | Done v => emit (Completed a (inj v)) ;;; ret v
  | Fails e => emit (Failed a e) ;;; raise e
  end.

Definition RETRY : RetryPolicy :=
  {| initial_interval := 5; backoff_coefficient := 2;
     maximum_interval := Some 60; maximum_attempts := 3 |}.

(** [RetryPolicy(maximum_attempts=3)] *)
Definition destroy_policy : RetryPolicy :=
  {| initial_interval := 1; backoff_coefficient := 2;
     maximum_interval := None; maximum_attempts := 3 |}.

(** ** Queries *)

Definition get_status : W string :=
  s <- get ;; ret (value (_status s)).

Definition get_infra_output : W (gmap string pyval) :=
  s <- get ;;
  match _output s with
  | None =>
      ret (<["ready" := PBool false]> {["status" := PStr (value (_status s))]})
  | Some o =>
      ret (<["resource_group" := PStr (resource_group_name o)]>
          (<["admin_username" := PStr (out_admin_username o)]>
          (<["vm_name" := PStr (vm_name o)]>
          (<["vm_public_ip" := PStr (vm_public_ip o)]>
          (<["ready" := PBool (bool_decide (_status s = READY))]>
           {["status" := PStr (value (_status s))]})))))
  end.

(** ** [run] *)

Section Run.
Variable env : Env.

(** The body of the [try]. *)
Definition run_try (input : InfraInput) : W InfraOutput :=
  set_status INITIALIZING ;;;
  _ <- execute_activity (TerraformInit input) 120 RETRY
         (λ h, exec_terraform_init env h input) VStr ;;
  set_status PLANNING ;;;
  plan <- execute_activity (TerraformPlan input) 300 RETRY
            (λ h, exec_terraform_plan env h input) VPlan ;;
  set_status PROVISIONING ;;;
  out <- execute_activity (TerraformApply input (plan_file plan)) 600 RETRY
           (λ h, exec_terraform_apply env h input (plan_file plan)) VOutput ;;
  set_output out ;;;
  set_applied true ;;;
  set_status VALIDATING ;;;
  s <- get ;;
  match _output s with
  | None => raise (AttributeError "'NoneType' object has no attribute 'vm_name'")
  | Some o =>
      healthy <- execute_activity (ValidateInfra o) 120 RETRY
                   (λ h, exec_validate_infra env h o) VBool ;;
      if negb healthy
      then raise (RuntimeError (vm_name o +:+ " failed health check"))
      else
        set_status READY ;;;
        s' <- get ;;
        match _output s' with
        | Some o' => ret o'
        | None => raise (AttributeError "'NoneType' object has no attribute 'vm_public_ip'")
        end
  end.

(** The [except Exception as e] handler. *)
Definition run_except (input : InfraInput) (e : exn) : W InfraOutput :=
  s <- get ;;
  (if _applied s
   then
     set_status DESTROYING ;;;
     try_except
       (execute_activity (TerraformDestroy input) 600 destroy_policy
          (λ h, exec_terraform_destroy env h input) (λ _, VNone))
       (λ de, ret tt)
   else ret tt) ;;;
  set_status FAILED ;;;
  raise e.

Definition run (input : InfraInput) : W InfraOutput :=
  try_except (run_try input) (run_except input).
End Run.

(** ** States a run goes through *)

Definition apply_event (s : Workflow) (e : Event) : Workflow :=
  match e with
  | StatusSet st => mkWorkflow st (_output s) (_applied s)
  | OutputSet o => mkWorkflow (_status s) (Some o) (_applied s)
  | AppliedSet b => mkWorkflow (_status s) (_output s) b
  | _ => s
  end.

(** [s] and the state after each event of [evs], in order. *)
Fixpoint states (s : Workflow) (evs : list Event) : list Workflow :=
  match evs with
  | [] => [s]
  | e :: evs' => s :: states (apply_event s e) evs'
  end.

(** Trace predicates used by the statements below. *)
Definition is_destroy (e : Event) : bool :=
  match e with Scheduled (TerraformDestroy _) _ _ => true | _ => false end.
Definition is_apply_done (e : Event) : bool :=
  match e with Completed (TerraformApply _ _) (VOutput _) => true | _ => false end.
Definition is_validated (e : Event) : bool :=
  match e with Completed (ValidateInfra _) (VBool true) => true | _ => false end.
Definition is_unhealthy (e : Event) : bool :=
  match e with Completed (ValidateInfra _) (VBool false) => true | _ => false end.
Definition is_init_or_plan_failure (e : Event) : bool :=
  match e with
  | Failed (TerraformInit _) _ | Failed (TerraformPlan _) _ => true
  | _ => false
  end.
Definition is_output_set (e : Event) : bool :=
  match e with OutputSet _ => true | _ => false end.

(** The values assigned to [self._output], in order. *)
Definition outputs (evs : list Event) : list InfraOutput :=
  omap (λ e, match e with OutputSet o => Some o | _ => None end) evs.

(** ** Scenarios *)

(** [InfraInput(project_name="test", environment="test")], as in
    [test_all.py]. *)
Definition test_input : InfraInput :=
  mkInfraInput "test" "uksouth" "test" "Standard_B2s" "10.0.0.0/16"
               "10.0.1.0/24" "azureadmin".

(** The mocked activities, except that the health check of the VM
    reports it down. *)
Definition unhealthy_env : Env :=
  {| exec_terraform_init := λ _ i, Done (terraform_init i);
     exec_terraform_plan := λ _ i, Done (terraform_plan i);
     exec_terraform_apply := λ _ i p, Done (terraform_apply i p);
     exec_validate_infra := λ _ _, Done false;
     exec_terraform_destroy := λ _ i, Done (terraform_destroy i) |}.

(** The mocked activities, except that [terraform plan] fails for good. *)
Definition plan_failure_env : Env :=
  {| exec_terraform_init := λ _ i, Done (terraform_init i);
     exec_terraform_plan := λ _ _, Fails (ActivityError "terraform plan: exit status 1");
     exec_terraform_apply := λ _ i p, Done (terraform_apply i p);
     exec_validate_infra := λ _ o, Done (validate_infra o);
     exec_terraform_destroy := λ _ i, Done (terraform_destroy i) |}.

(** ** Reading a trace *)

(** The activities invoked, in order. *)
Definition invocations (evs : list Event) : list Activity :=
  omap (λ e, match e with Scheduled a _ _ => Some a | _ => None end) evs.

(** The values assigned to [self._status], in order. *)
Definition statuses (evs : list Event) : list InfraStatus :=
  omap (λ e, match e with StatusSet s => Some s | _ => None end) evs.

(** The inputs [terraform_destroy] was invoked on, in order. *)
Definition teardowns (evs : list Event) : list InfraInput :=
  omap (λ e, match e with
             | Scheduled (TerraformDestroy i) _ _ => Some i
             | _ => None
             end) evs.

(** ** More scenarios *)

(** The health check reports the VM down and the teardown fails too. *)
Definition stuck_teardown_env : Env :=
  {| exec_terraform_init := λ _ i, Done (terraform_init i);
     exec_terraform_plan := λ _ i, Done (terraform_plan i);
     exec_terraform_apply := λ _ i p, Done (terraform_apply i p);
     exec_validate_infra := λ _ _, Done false;
     exec_terraform_destroy := λ _ _, Fails (ActivityError "terraform destroy: exit status 1") |}.

End Infra.

(** * The CI/CD pipeline saga ([cicd_workflow.py]) *)

Module CICD.

(** ** Models *)

Inductive DeployStatus : Type :=
  | PENDING | CHECKING_OUT | BUILDING | TESTING
  | DEPLOYING | COMPLETED | FAILED | ROLLED_BACK.

Definition value (s : DeployStatus) : string :=
  match s with
  | PENDING => "PENDING" | CHECKING_OUT => "CHECKING_OUT"
  | BUILDING => "BUILDING" | TESTING => "TESTING"
  | DEPLOYING => "DEPLOYING" | COMPLETED => "COMPLETED"
  | FAILED => "FAILED" | ROLLED_BACK => "ROLLED_BACK"
  end.

Record DeployInput : Type := mkDeployInput {
  repo_url : string;
  branch : string;
  commit_sha : option string;
  build_command : string;
  test_command : string;
  target_host : string;
  admin_username : string
}.

(** [DeployInput(repo_url=r, target_host=t)] with the dataclass defaults. *)
Definition DeployInput_default (r t : string) : DeployInput :=
  mkDeployInput r "main" None "make build" "make test" t "azureadmin".

Record BuildResult : Type := mkBuildResult {
  artifact_name : string;
  build_commit_sha : string;     (* [BuildResult.commit_sha] *)
  tests_passed : nat;
  tests_total : nat
}.

Record DeployResult : Type := mkDeployResult {
  result_target_host : string;   (* [DeployResult.target_host] *)
  artifact : string;
  application_url : string;
  healthy : bool
}.

(** Python truthiness of a [str]: only the empty string is falsy. *)
Definition truthy (s : string) : bool := negb (String.eqb s "").

(** ** Activities, as mocked in the source *)

(** [uuid8] stands for [uuid.uuid4().hex[:8]]. *)
Definition checkout_and_build (uuid8 : string) (input : DeployInput)
  : BuildResult :=
  let sha :=
    match commit_sha input with
    | Some c => if truthy c then c else uuid8
    | None => uuid8
    end in
  {| artifact_name := "app-" +:+ sha +:+ ".tar.gz";
     build_commit_sha := sha;
     tests_passed := 0;
     tests_total := 0 |}.

Definition run_tests (input : DeployInput) : bool := true.

Definition deploy_artifact (build : BuildResult)
    (target_host admin_username : string) : DeployResult :=
  let url := "http://" +:+ target_host +:+ ":8080" in
  {| result_target_host := target_host;
     artifact := artifact_name build;
     application_url := url;
     healthy := true |}.

Definition rollback (target_host admin_username : string) : unit := tt.

Definition notify (message : string) : unit := tt.

(** ** Events of a run *)

Inductive Activity : Type :=
  | CheckoutAndBuild (input : DeployInput)
  | RunTests (input : DeployInput)
  | DeployArtifact (build : BuildResult) (target_host admin_username : string)
  | Rollback (target_host admin_username : string)
  | Notify (message : string).

Inductive Value : Type :=
  | VBuild (b : BuildResult)
  | VBool (b : bool)
  | VDeploy (r : DeployResult)
  | VNone.

Inductive Event : Type :=
  | Scheduled (a : Activity) (start_to_close_timeout : nat)
              (retry_policy : option RetryPolicy)
  | Completed (a : Activity) (v : Value)
  | Failed (a : Activity) (e : exn)
  | StatusSet (s : DeployStatus)           (* [self._status = s] *)
  | ResultSet (r : DeployResult)           (* [self._result = r] *)
  | SignalReceived (input : DeployInput)   (* [trigger_redeploy] starts *)
  | NextInputSet (input : DeployInput)     (* [self._next_input = input] *)
  | RedeployRequestedSet (b : bool)        (* [self._redeploy_requested = b] *)
  | Waiting.                               (* suspended in [wait_condition] *)

(** The runtime: the final answer to each activity invocation and the
    redeploy signals delivered while the workflow is suspended, both as
    functions of everything that happened before. *)
Record Env : Type := mkEnv {
  exec_checkout_and_build : list Event → DeployInput → answer BuildResult;
  exec_run_tests : list Event → DeployInput → answer bool;
  exec_deploy_artifact :
    list Event → BuildResult → string → string → answer DeployResult;
  exec_rollback : list Event → string → string → answer unit;
  exec_notify : list Event → string → answer unit;
  signals : list Event → list DeployInput
}.

(** The mocked activities, with a source of fresh identifiers and a
    schedule of signals. *)
Definition mock_env (uuid8 : list Event → string)
    (sigs : list Event → list DeployInput) : Env :=
  {| exec_checkout_and_build := λ h i, Done (checkout_and_build (uuid8 h) i);
     exec_run_tests := λ _ i, Done (run_tests i);
     exec_deploy_artifact := λ _ b t a, Done (deploy_artifact b t a);
     exec_rollback := λ _ t a, Done (rollback t a);
     exec_notify := λ _ m, Done (notify m);
     signals := sigs |}.

(** ** The workflow object *)

Record Workflow : Type := mkWorkflow {
  _status : DeployStatus;
  _result : option DeployResult;
  _redeploy_requested : bool;
  _next_input : option DeployInput
}.

(** [__init__] *)
Definition init : Workflow := mkWorkflow PENDING None false None.

Definition W : Type → Type := M Workflow Event.

Definition set_status (st : DeployStatus) : W unit :=
  modify (λ s, mkWorkflow st (_result s) (_redeploy_requested s) (_next_input s)) ;;;
  emit (StatusSet st).

Definition set_result (r : DeployResult) : W unit :=
  modify (λ s, mkWorkflow (_status s) (Some r) (_redeploy_requested s) (_next_input s)) ;;;
  emit (ResultSet r).

Definition set_redeploy_requested (b : bool) : W unit :=
  modify (λ s, mkWorkflow (_status s) (_result s) b (_next_input s)) ;;;
  emit (RedeployRequestedSet b).

Definition set_next_input (i : DeployInput) : W unit :=
  modify (λ s, mkWorkflow (_status s) (_result s) (_redeploy_requested s) (Some i)) ;;;
  emit (NextInputSet i).

(** ** Queries and the signal handler *)

Definition get_status : W string :=
  s <- get ;; ret (value (_status s)).

Definition get_deploy_details : W (gmap string pyval) :=
  s <- get ;;
  let d := {["status" := PStr (value (_status s))]} in
  match _result s with
  | Some r =>
      ret (<["healthy" := PBool (healthy r)]>
          (<["artifact" := PStr (artifact r)]>
          (<["application_url" := PStr (application_url r)]> d)))
  | None => ret d
  end.

Definition trigger_redeploy (input : DeployInput) : W unit :=
  emit (SignalReceived input) ;;;
  set_next_input input ;;;
  set_redeploy_requested true.

(** The handlers of a batch of signals run one after the other. *)
Fixpoint deliver (batch : list DeployInput) : W unit :=
  match batch with
  | [] => ret tt
  | i :: rest => trigger_redeploy i ;;; deliver rest
  end.

Definition RETRY : RetryPolicy :=
  {| initial_interval := 2; backoff_coefficient := 2;
     maximum_interval := None; maximum_attempts := 3 |}.

Section Run.
Variable env : Env.

(** [await workflow.execute_activity(...)]: the invocation is recorded;
    while the workflow is suspended the runtime may deliver signals,
    then it answers. *)
Definition execute_activity {A} (a : Activity) (t : nat)
    (p : option RetryPolicy)
    (runtime : list Event → answer A) (inj : A → Value) : W A :=
  emit (Scheduled a t p) ;;;
  h <- history ;;
  deliver (signals env h) ;;;
  h' <- history ;;
  match runtime h' with
  | Done v => emit (Completed a (inj v)) ;;; ret v
  | Fails e => emit (Failed a e) ;;; raise e
  end.

(** [await workflow.wait_condition(lambda: self._redeploy_requested)] *)
Definition wait_condition : W unit :=
  s <- get ;;
  if _redeploy_requested s then ret tt
  else
    emit Waiting ;;;
    h <- history ;;
    match signals env h with
    | [] => parked
    | batch => deliver batch
    end.

(** The body of the [try] of [_pipeline]. *)
Definition _pipeline_try (input : DeployInput) : W DeployResult :=
  set_status BUILDING ;;;
  build <- execute_activity (CheckoutAndBuild input) 300 (Some RETRY)
             (λ h, exec_checkout_and_build env h input) VBuild ;;
  set_status TESTING ;;;
  passed <- execute_activity (RunTests input) 600 (Some RETRY)
              (λ h, exec_run_tests env h input) VBool ;;
  if negb passed
  then raise (RuntimeError "tests failed, not deploying broken code")
  else
    set_status DEPLOYING ;;;
    result <- execute_activity
                (DeployArtifact build (target_host input) (admin_username input))
                300 (Some RETRY)
                (λ h, exec_deploy_artifact env h build
                        (target_host input) (admin_username input))
                VDeploy ;;
    set_result result ;;;
    set_status COMPLETED ;;;
    execute_activity
      (Notify ("deployed " +:+ artifact_name build +:+ " to " +:+ target_host input))
      30 None
      (λ h, exec_notify env h
              ("deployed " +:+ artifact_name build +:+ " to " +:+ target_host input))
      (λ _, VNone) ;;;
    ret result.

(** The [except Exception as e] handler of [_pipeline]. *)
Definition _pipeline_except (input : DeployInput) (e : exn)
  : W DeployResult :=
  set_status FAILED ;;;
  try_except
    (execute_activity
       (Rollback (target_host input) (admin_username input)) 120 None
       (λ h, exec_rollback env h (target_host input) (admin_username input))
       (λ _, VNone) ;;;
     set_status ROLLED_BACK)
    (λ _, ret tt) ;;;
  execute_activity (Notify ("deploy failed: " +:+ str e)) 30 None
    (λ h, exec_notify env h ("deploy failed: " +:+ str e)) (λ _, VNone) ;;;
  raise e.

Definition _pipeline (input : DeployInput) : W DeployResult :=
  try_except (_pipeline_try input) (_pipeline_except input).

(** The two assignments under [if not redeploy.target_host]. *)
Definition default_target (input redeploy : DeployInput) : DeployInput :=
  if truthy (target_host redeploy) then redeploy
  else
    mkDeployInput (repo_url redeploy) (branch redeploy)
      (commit_sha redeploy) (build_command redeploy)
      (test_command redeploy) (target_host input) (admin_username input).

(** One turn of the [while True] loop of [run]. *)
Definition redeploy_cycle (input : DeployInput) : W unit :=
  wait_condition ;;;
  set_redeploy_requested false ;;;
  s <- get ;;
  match _next_input s with
  | None => raise (AttributeError "'NoneType' object has no attribute 'target_host'")
  | Some redeploy =>
      (* [redeploy] and [self._next_input] are the same object: the
         assignments to its fields show in both *)
      modify (λ s, mkWorkflow (_status s) (_result s) (_redeploy_requested s)
                     (Some (default_target input redeploy))) ;;;
      r <- _pipeline (default_target input redeploy) ;;
      set_result r
  end.

(** The loop, unrolled at most [fuel] times. *)
Fixpoint serve (fuel : nat) (input : DeployInput) : W DeployResult :=
  match fuel with
  | 0 => out_of_fuel
  | S n => redeploy_cycle input ;;; serve n input
  end.

Definition run (fuel : nat) (input : DeployInput) : W DeployResult :=
  if negb (truthy (target_host input))
  then raise (ValueError "no target_host - has the infra team provisioned the VM yet?")
  else
    r <- _pipeline input ;;
    set_result r ;;;
    serve fuel input.
End Run.

(** ** Reading a trace *)

(** The activities invoked, in order. *)
Definition invocations (evs : list Event) : list Activity :=
  omap (λ e, match e with Scheduled a _ _ => Some a | _ => None end) evs.

(** The values assigned to [self._status], in order. *)
Definition statuses (evs : list Event) : list DeployStatus :=
  omap (λ e, match e with StatusSet s => Some s | _ => None end) evs.

(** The values assigned to [self._result], in order. *)
Definition results (evs : list Event) : list DeployResult :=
  omap (λ e, match e with ResultSet r => Some r | _ => None end) evs.

(** The inputs of the cycles started: every cycle begins by invoking
    [checkout_and_build] on its input. *)
Definition cycles (evs : list Event) : list DeployInput :=
  omap (λ e, match e with
             | Scheduled (CheckoutAndBuild i) _ _ => Some i
             | _ => None
             end) evs.

(** The events of the handlers of a batch of signals. *)
Definition signal_events (batch : list DeployInput) : list Event :=
  batch ≫= λ i, [SignalReceived i; NextInputSet i; RedeployRequestedSet true].

(** [self] after the handlers of a batch of signals. *)
Definition after_signals (batch : list DeployInput) (s : Workflow) : Workflow :=
  mkWorkflow (_status s) (_result s)
    (match batch with [] => _redeploy_requested s | _ => true end)
    (match last batch with Some i => Some i | None => _next_input s end).

(** ** Scenarios *)

Definition no_signals : list Event → list DeployInput := λ _, [].
Definition fixed_uuid : list Event → string := λ _, "0a1b2c3d".

(** [DeployInput(repo_url="https://github.com/x/y.git",
    target_host="1.2.3.4")], as in [test_all.py]. *)
Definition test_input : DeployInput :=
  DeployInput_default "https://github.com/x/y.git" "1.2.3.4".

(** The input [deploy.py] would build with no host: [target_host] keeps
    its default, the empty string. *)
Definition no_host_input : DeployInput :=
  DeployInput_default "https://github.com/example/myapp.git" "".

Definition unreachable : exn := ActivityError "notify: connection refused".

(** The mocked activities, except that the test suite reports failure. *)
Definition red_tests_env : Env :=
  {| exec_checkout_and_build := λ h i, Done (checkout_and_build (fixed_uuid h) i);
     exec_run_tests := λ _ _, Done false;
     exec_deploy_artifact := λ _ b t a, Done (deploy_artifact b t a);
     exec_rollback := λ _ t a, Done (rollback t a);
     exec_notify := λ _ m, Done (notify m);
     signals := no_signals |}.

(** Failing tests and a notification channel that is down. *)
Definition red_tests_notify_down_env : Env :=
  {| exec_checkout_and_build := λ h i, Done (checkout_and_build (fixed_uuid h) i);
     exec_run_tests := λ _ _, Done false;
     exec_deploy_artifact := λ _ b t a, Done (deploy_artifact b t a);
     exec_rollback := λ _ t a, Done (rollback t a);
     exec_notify := λ _ _, Fails unreachable;
     signals := no_signals |}.

(** The mocked activities with the notification channel down. *)
Definition notify_down_env : Env :=
  {| exec_checkout_and_build := λ h i, Done (checkout_and_build (fixed_uuid h) i);
     exec_run_tests := λ _ i, Done (run_tests i);
     exec_deploy_artifact := λ _ b t a, Done (deploy_artifact b t a);
     exec_rollback := λ _ t a, Done (rollback t a);
     exec_notify := λ _ _, Fails unreachable;
     signals := no_signals |}.

(** Has the workflow been parked in [wait_condition] before? *)
Definition has_waited (h : list Event) : bool :=
  existsb (λ e, match e with Waiting => true | _ => false end) h.

(** Signals are delivered once: [batch], the first time the workflow
    waits for a redeploy. *)
Definition at_first_wait (batch : list DeployInput)
  : list Event → list DeployInput :=
  λ h, match reverse h with
       | Waiting :: before => if has_waited before then [] else batch
       | _ => []
       end.

(** Signals are delivered once: [batch], to a workflow that has done
    nothing yet but wait. *)
Definition only_when_parked (batch : list DeployInput)
  : list Event → list DeployInput :=
  λ h, match h with
       | [Waiting] => batch
       | _ => []
       end.

(** The mocked activities; [batch] is delivered at the first wait. *)
Definition redeploy_env (batch : list DeployInput) : Env :=
  mock_env fixed_uuid (at_first_wait batch).

(** As [redeploy_env], but the notification channel goes down once the
    first cycle is over. *)
Definition notify_down_later_env (batch : list DeployInput) : Env :=
  {| exec_checkout_and_build := λ h i, Done (checkout_and_build (fixed_uuid h) i);
     exec_run_tests := λ _ i, Done (run_tests i);
     exec_deploy_artifact := λ _ b t a, Done (deploy_artifact b t a);
     exec_rollback := λ _ t a, Done (rollback t a);
     exec_notify := λ h m, if has_waited h then Fails unreachable
                           else Done (notify m);
     signals := at_first_wait batch |}.

(** A first deployment by the account [ops]. *)
Definition ops_input : DeployInput :=
  mkDeployInput "https://github.com/example/myapp.git" "main"
    (Some "aaaa1111") "make build" "make test" "1.2.3.4" "ops".

(** A redeploy request as [deploy.py redeploy] sends it: neither
    [target_host] nor [admin_username] is given. *)
Definition push_signal : DeployInput :=
  mkDeployInput "https://github.com/example/myapp.git" "main"
    (Some "bbbb2222") "make build" "make test" "" "azureadmin".

(** A redeploy request that names another host and leaves
    [admin_username] out, so that it takes the dataclass default. *)
Definition move_signal : DeployInput :=
  mkDeployInput "https://github.com/example/myapp.git" "main"
    (Some "bbbb2222") "make build" "make test" "5.6.7.8" "azureadmin".

(** The same request with an empty [admin_username]. *)
Definition move_signal_blank_admin : DeployInput :=
  mkDeployInput "https://github.com/example/myapp.git" "main"
    (Some "bbbb2222") "make build" "make test" "5.6.7.8" "".

(** ** More readings of a trace *)

(** The inputs of the redeploy signals received, in order. *)
Definition signalled (evs : list Event) : list DeployInput :=
  omap (λ e, match e with SignalReceived i => Some i | _ => None end) evs.

(** The targets [rollback] was invoked on, in order. *)
Definition rollbacks (evs : list Event) : list (string * string) :=
  omap (λ e, match e with
             | Scheduled (Rollback t a) _ _ => Some (t, a)
             | _ => None
             end) evs.

(** How often the workflow parked in [wait_condition]. *)
Definition waits (evs : list Event) : nat :=
  length (omap (λ e, match e with Waiting => Some tt | _ => None end) evs).

(** ** More scenarios *)

(** The mocked activities, except that the build fails for good. *)
Definition build_down_env : Env :=
  {| exec_checkout_and_build := λ _ _, Fails (ActivityError "make build: exit status 2");
     exec_run_tests := λ _ i, Done (run_tests i);
     exec_deploy_artifact := λ _ b t a, Done (deploy_artifact b t a);
     exec_rollback := λ _ t a, Done (rollback t a);
     exec_notify := λ _ m, Done (notify m);
     signals := no_signals |}.

(** The mocked activities, except that the deploy fails for good and so
    does the rollback. *)
Definition deploy_down_env : Env :=
  {| exec_checkout_and_build := λ h i, Done (checkout_and_build (fixed_uuid h) i);
     exec_run_tests := λ _ i, Done (run_tests i);
     exec_deploy_artifact := λ _ _ _ _, Fails (ActivityError "scp: connection timed out");
     exec_rollback := λ _ _ _, Fails (ActivityError "ssh: connection timed out");
     exec_notify := λ _ m, Done (notify m);
     signals := no_signals |}.

(** Signals are delivered once: [batch], while the first deploy activity
    is in flight. *)
Definition during_first_deploy (batch : list DeployInput)
  : list Event → list DeployInput :=
  λ h, match reverse h with
       | Scheduled (DeployArtifact _ _ _) _ _ :: before =>
           if existsb (λ e, match e with
                            | Scheduled (DeployArtifact _ _ _) _ _ => true
                            | _ => false
                            end) before
           then [] else batch
       | _ => []
       end.

End CICD.

(** * The command-line clients ([deploy.py], [infra.py]) *)

(** What the clients do with the Temporal client is a dialogue with the
    runtime: the answers to their queries and calls are parameters, what
    they print and start is the result. *)
Module Cli.

(** Truthiness of [d.get(k)]: a missing key gives [None]. *)
Definition get_truthy (d : gmap string pyval) (k : string) : bool :=
  match d !! k with
  | Some (PStr s) => negb (String.eqb s "")
  | Some (PBool b) => b
  | None => false
  end.

(** How an f-string renders a value. *)
Definition fmt (v : pyval) : string :=
  match v with
  | PStr s => s
  | PBool true => "True"
  | PBool false => "False"
  end.

(** What stops a command before its end. *)
Inductive crash : Type :=
  | KeyError (key : string)     (* [d[key]] on a missing key *)
  | Uncaught (e : exn).         (* an exception of the Temporal client *)

(** ** [infra.py status] *)

(** [str(e)] of a [KeyError] is the [repr] of the key. *)
Definition key_error_str (key : string) : string := "'" +:+ key +:+ "'".

(** [status(client)] of [infra.py]: the lines printed, given the answers
    to the two queries.  Every exception is caught, the [KeyError] of a
    missing entry too. *)
Definition infra_status (q_status : answer string)
    (q_output : answer (gmap string pyval)) : list string :=
  match q_status with
  | Fails e => ["not running or doesn't exist yet (" +:+ str e +:+ ")"]
  | Done s =>
      match q_output with
      | Fails e => ["not running or doesn't exist yet (" +:+ str e +:+ ")"]
      | Done o =>
          if get_truthy o "ready" then
            match o !! "vm_name" with
            | None =>
                ["status: " +:+ s;
                 "not running or doesn't exist yet (" +:+ key_error_str "vm_name" +:+ ")"]
            | Some name =>
                match o !! "vm_public_ip" with
                | None =>
                    ["status: " +:+ s;
                     "not running or doesn't exist yet ("
                       +:+ key_error_str "vm_public_ip" +:+ ")"]
                | Some ip =>
                    ["status: " +:+ s;
                     "  VM: " +:+ fmt name +:+ " @ " +:+ fmt ip]
                end
            end
          else ["status: " +:+ s]
      end
  end.

(** ** [deploy.py] *)

Import CICD.

Definition TASK_QUEUE : string := "app-deployments".

(** The answers of the runtime to [deploy.py run]. *)
Record Client : Type := mkClient {
  (* [handle.query(get_infra_output)] on ["infra-myapp-dev"] *)
  query_infra : answer (gmap string pyval);
  (* [client.start_workflow(run, input, id=wf_id, ...)] *)
  start_workflow : string → DeployInput → answer unit;
  (* the k-th [handle.query(get_deploy_details)] after the start *)
  query_details : DeployInput → nat → answer (gmap string pyval)
}.

(** What a command did: the lines it printed, the workflow it asked the
    runtime to start, and what stopped it, if anything did. *)
Record Session : Type := mkSession {
  printed : list string;
  requested : option (string * DeployInput);
  crashed : option crash
}.

Definition newline : string := String (Ascii.ascii_of_nat 10) EmptyString.

(** The loop [for _ in range(60)] of [run_deploy], from its [k]-th
    turn with [left] turns to go: the lines printed and what stopped it. *)
Fixpoint poll (c : Client) (input : DeployInput) (k left : nat)
  : list string * option crash :=
  match left with
  | 0 => (["timed out waiting for deploy to finish"], None)
  | S left' =>
      match query_details c input k with
      | Fails e => ([], Some (Uncaught e))
      | Done details =>
          if get_truthy details "application_url" then
            match details !! "application_url" with
            | None => ([newline +:+ "deployed!"], Some (KeyError "application_url"))
            | Some url =>
                match details !! "artifact" with
                | None =>
                    ([newline +:+ "deployed!"; "  url: " +:+ fmt url],
                     Some (KeyError "artifact"))
                | Some art =>
                    ([newline +:+ "deployed!"; "  url: " +:+ fmt url;
                      "  artifact: " +:+ fmt art], None)
                end
            end
          else poll c input (S k) left'
      end
  end.

(** From the start of the pipeline on: [run_deploy] once it has a host. *)
Definition start_and_poll (c : Client) (said : list string) (host : string)
  : Session :=
  let input := DeployInput_default "https://github.com/example/myapp.git" host in
  let wf_id := "cicd-myapp-dev" in
  match start_workflow c wf_id input with
  | Fails e =>
      mkSession (said ++ ["starting pipeline: " +:+ wf_id])
                (Some (wf_id, input)) (Some (Uncaught e))
  | Done _ =>
      let '(lines, stop) := poll c input 0 60 in
      mkSession (said ++ ["starting pipeline: " +:+ wf_id] ++ lines)
                (Some (wf_id, input)) stop
  end.

(** [run_deploy(client, host)].  A value found under [vm_public_ip] is
    taken as the host in the form an f-string gives it; the infra query
    only ever stores a string there. *)
Definition run_deploy (c : Client) (host : option string) : Session :=
  let given := match host with Some t => truthy t | None => false end in
  if given then start_and_poll c [] (default "" host)
  else
    match query_infra c with
    | Fails _ =>
        mkSession ["can't find infra workflow - has the infra team run 'python infra.py provision' yet?"]
                  None None
    | Done infra =>
        if get_truthy infra "ready" then
          match infra !! "vm_public_ip" with
          | None => mkSession [] None (Some (KeyError "vm_public_ip"))
          | Some ip => start_and_poll c ["found VM at " +:+ fmt ip] (fmt ip)
          end
        else
          match infra !! "status" with
          | None => mkSession [] None (Some (KeyError "status"))
          | Some st =>
              mkSession ["infra's not ready yet (status: " +:+ fmt st +:+ ")"]
                        None None
          end
    end.

(** The input [redeploy(client)] signals: [DeployInput(repo_url=...,
    branch="main")], every other field at its default. *)
Definition redeploy_signal : DeployInput :=
  DeployInput_default "https://github.com/example/myapp.git" "".

(** [status(client)] of [deploy.py]: the lines printed, given the answer
    to the query. *)
Definition deploy_status (q_details : answer (gmap string pyval)) : list string :=
  match q_details with
  | Fails e => ["not running (" +:+ str e +:+ ")"]
  | Done d =>
      match d !! "status" with
      | None => ["not running (" +:+ key_error_str "status" +:+ ")"]
      | Some st =>
          if get_truthy d "application_url" then
            match d !! "application_url" with
            | None =>
                ["status: " +:+ fmt st;
                 "not running (" +:+ key_error_str "application_url" +:+ ")"]
            | Some url =>
                match d !! "artifact" with
                | None =>
                    ["status: " +:+ fmt st; "  url: " +:+ fmt url;
                     "not running (" +:+ key_error_str "artifact" +:+ ")"]
                | Some art =>
                    ["status: " +:+ fmt st; "  url: " +:+ fmt url;
                     "  artifact: " +:+ fmt art]
                end
            end
          else ["status: " +:+ fmt st]
      end
  end.

(** The runtime answers a query with what the query method returns on
    the workflow as it stands. *)
Definition answer_of {A S E} (x : outcome A * S * list E) : answer A :=
  match result_of x with
  | Ok a => Done a
  | Raise e => Fails e
  | Parked | OutOfFuel => Fails (RuntimeError "query did not return")
  end.

(** ** Scenarios *)

(** The infra workflow after the provisioning of [test_all.py], and what
    its output query answers then. *)
Definition provisioned : Infra.Workflow :=
  self_of (Infra.run Infra.mock_env Infra.test_input [] Infra.init).

Definition provisioned_answer : answer (gmap string pyval) :=
  answer_of (Infra.get_infra_output [] provisioned).

(** The pipeline workflow after a first deployment with the mocked
    activities, and a runtime that serves its details to every query. *)
Definition deployed (input : DeployInput) : Workflow :=
  self_of (run (mock_env fixed_uuid no_signals) 1 input [] init).

Definition mocked_client (infra : answer (gmap string pyval)) : Client :=
  {| query_infra := infra;
     start_workflow := λ _ _, Done tt;
     query_details := λ i _, answer_of (get_deploy_details [] (deployed i)) |}.


(** A runtime in which the pipeline started by [run_deploy] shows its
    result at the third query. *)
Definition slow_client (infra : answer (gmap string pyval)) : Client :=
  {| query_infra := infra;
     start_workflow := λ _ _, Done tt;
     query_details := λ i k,
       if k <? 2 then Done {["status" := PStr "DEPLOYING"]}
       else Done (<["healthy" := PBool true]>
                 (<["artifact" := PStr "app-0a1b2c3d.tar.gz"]>
                 (<["application_url" := PStr ("http://" +:+ target_host i +:+ ":8080")]>
                  {["status" := PStr "COMPLETED"]}))) |}.

(** A runtime in which the pipeline never gets to deploy. *)
Definition stalled_client : Client :=
  {| query_infra := Fails (ActivityError "workflow not found");
     start_workflow := λ _ _, Done tt;
     query_details := λ _ _, Done {["status" := PStr "FAILED"]} |}.

End Cli.

(** * Properties of the infra provisioning saga *)

Module InfraProofs.
Import Infra.

(** Each activity either completes or fails for good, so a run follows
    one of finitely many paths: ask the runtime at every invocation. *)
Ltac ask_runtime :=
  match goal with
  | |- context [exec_terraform_init ?e ?h ?i] =>
      destruct (exec_terraform_init e h i) as [?|?]
  | |- context [exec_terraform_plan ?e ?h ?i] =>
      destruct (exec_terraform_plan e h i) as [?|?]
  | |- context [exec_terraform_apply ?e ?h ?i ?p] =>
      destruct (exec_terraform_apply e h i p) as [?|?]
  | |- context [exec_validate_infra ?e ?h ?o] =>
      destruct (exec_validate_infra e h o) as [[|]|?]
  | |- context [exec_terraform_destroy ?e ?h ?i] =>
      destruct (exec_terraform_destroy e h i) as [?|?]
  end.

Ltac run_cases :=
  cbv [run run_try run_except try_except bind execute_activity set_status
       set_output set_applied modify emit history get ret raise
       result_of self_of events_of];
  cbn; repeat (ask_runtime; cbn).

(** Name the run, analyse it once, then look at each path. *)
Ltac paths x :=
  let H := fresh in
  match goal with x := ?t |- _ => assert (H : x = t) by reflexivity end;
  clearbody x; revert H; run_cases; intros ->; cbn.

(** All the ways of cutting a known trace at one of its events. *)
Ltac split_trace H :=
  repeat match type of H with
  | _ :: _ = ?pre ++ _ :: _ =>
      destruct pre as [|? pre]; simpl in H; [ try discriminate H | ];
      injection H as ? H; subst
  | [] = ?pre ++ _ :: _ => destruct pre; discriminate H
  end.

Ltac absent :=
  let H := fresh in
  intros H;
  repeat (apply elem_of_cons in H as [H|H]; [discriminate H|]);
  by apply elem_of_nil in H.

Ltac member H :=
  repeat (apply elem_of_cons in H as [H|H]; [subst|]);
  [..|by apply elem_of_nil in H].

(** ** The query *)

Lemma get_infra_output_ready (h : list Event) (s : Workflow) :
  ∃ d, get_infra_output h s = (Ok d, s, [])
    ∧ d !! "ready" =
        Some (PBool (match _output s with
                     | Some _ => bool_decide (_status s = READY)
                     | None => false
                     end)).
Proof.
  unfold get_infra_output, bind, get, ret; cbn.
  destruct (_output s); cbn; eexists; (split; [reflexivity|]).
  all: by repeat (rewrite lookup_insert_ne; [|done]);
          rewrite ?lookup_insert_eq, ?lookup_singleton_eq.
Qed.

Lemma get_infra_output_empty (h : list Event) (s : Workflow) :
  _output s = None →
  get_infra_output h s =
    (Ok (<["ready" := PBool false]> {["status" := PStr (value (_status s))]}),
     s, []).
Proof. unfold get_infra_output, bind, get, ret; cbn. by intros ->. Qed.

(** No state of a run is [READY] without a stored output. *)
Lemma ready_has_output (env : Env) (input : InfraInput) (s : Workflow) :
  s ∈ states init (events_of (run env input [] init)) →
  _status s = READY → is_Some (_output s).
Proof.
  revert s. run_cases; intros s Hs; member Hs; cbn; try discriminate; eauto.
Qed.

(** The states read off the trace end in the state the run ends in. *)
Lemma final_state_is_a_state (env : Env) (input : InfraInput) :
  last (states init (events_of (run env input [] init)))
    = Some (self_of (run env input [] init)).
Proof. run_cases; reflexivity. Qed.

(** The end-to-end scenario of [test_all.py]. *)
Example test_infra :
  let x := run mock_env test_input [] init in
  (∃ o, result_of x = Ok o
     ∧ vm_name o = "vm-test-test"
     ∧ vm_public_ip o = "20.185.72.14"
     ∧ out_admin_username o = "azureadmin")
  ∧ result_of (get_status (events_of x) (self_of x)) = Ok "READY".
Proof. split; [eexists; by repeat split | reflexivity]. Qed.

(** A run never blocks: it returns the output or raises. *)
Lemma run_returns_or_raises (env : Env) (input : InfraInput) :
  (∃ o, result_of (run env input [] init) = Ok o)
  ∨ (∃ e, result_of (run env input [] init) = Raise e).
Proof. run_cases; eauto. Qed.

(** ** C1 *)

(** C1, as stated, fails: with a VM that does not answer the health
    check, the output of [terraform apply] is stored in [self._output]
    (where [get_infra_output] reads it) although no validation ever
    succeeded, and it is still there when the run has ended in [FAILED]. *)
Lemma output_stored_without_validation :
  let x := run unhealthy_env test_input [] init in
  _output (self_of x) = Some (terraform_apply test_input "./terraform/tfplan")
  ∧ existsb is_validated (events_of x) = false
  ∧ _status (self_of x) = FAILED.
Proof. by repeat split. Qed.

(** C1, amended: [self._output] is assigned at most once in a run, right
    after [terraform_apply] completed and with the value it returned (so
    before the health check); nothing assigns it again afterwards.  [run]
    returns an output only when apply completed and the health check
    passed, and it returns the stored one. *)
Theorem output_assigned_once_after_apply (env : Env) (input : InfraInput) :
  let x := run env input [] init in
  (∀ pre o post, events_of x = pre ++ OutputSet o :: post →
     (∃ p, last pre = Some (Completed (TerraformApply input p) (VOutput o)))
     ∧ outputs pre = [] ∧ outputs post = [])
  ∧ (∀ o, result_of x = Ok o →
       existsb is_apply_done (events_of x) = true
       ∧ existsb is_validated (events_of x) = true
       ∧ outputs (events_of x) = [o]
       ∧ _output (self_of x) = Some o).
Proof.
  intros x. paths x.
  all: split; [intros pre o post H; split_trace H; eauto
              |intros o H; by simplify_eq].
Qed.

(** ** C3 *)

(** C3: [terraform_destroy] is invoked exactly when the run fails after
    [terraform_apply] completed.  When the health check reports the VM
    down, the teardown is invoked, the run ends in [FAILED] and [READY]
    is never assigned; when init or plan fails, the run ends in [FAILED]
    with no teardown. *)
Theorem teardown_iff_failed_after_apply (env : Env) (input : InfraInput) :
  let x := run env input [] init in
  (existsb is_destroy (events_of x) = true ↔
     (∃ e, result_of x = Raise e)
     ∧ existsb is_apply_done (events_of x) = true)
  ∧ (existsb is_unhealthy (events_of x) = true →
       existsb is_destroy (events_of x) = true
       ∧ (∃ e, result_of x = Raise e)
       ∧ _status (self_of x) = FAILED
       ∧ StatusSet READY ∉ events_of x)
  ∧ (existsb is_init_or_plan_failure (events_of x) = true →
       (∃ e, result_of x = Raise e)
       ∧ _status (self_of x) = FAILED
       ∧ existsb is_destroy (events_of x) = false).
Proof.
  intros x. paths x.
  all: split; [split; [intros ?|intros [[? ?] ?]]; try done; eauto|].
  all: split; intros ?; try done.
  all: repeat split; eauto; absent.
Qed.

Lemma teardown_iff_failed_after_apply_witness :
  (existsb is_destroy (events_of (run unhealthy_env test_input [] init)) = true
   ∧ _status (self_of (run unhealthy_env test_input [] init)) = FAILED)
  ∧ (_status (self_of (run plan_failure_env test_input [] init)) = FAILED
     ∧ existsb is_destroy (events_of (run plan_failure_env test_input [] init))
       = false).
Proof.
  split.
  - destruct (teardown_iff_failed_after_apply unhealthy_env test_input)
      as (_ & Hdown & _).
    destruct (Hdown eq_refl) as (Hd & _ & Hs & _). split; [exact Hd | exact Hs].
  - destruct (teardown_iff_failed_after_apply plan_failure_env test_input)
      as (_ & _ & Hplan).
    destruct (Hplan eq_refl) as (_ & Hs & Hd). split; [exact Hs | exact Hd].
Defined.

(** ** C5 *)

(** C5: in every state a run goes through, [get_infra_output] answers
    with a dictionary whose [ready] entry is [True] exactly when the
    status is [READY]; while no output is stored the dictionary holds the
    status and [ready = False] and nothing else; the query leaves the
    workflow as it found it and emits nothing. *)
Theorem output_query_ready_iff (env : Env) (input : InfraInput)
    (s : Workflow) (h : list Event) :
  s ∈ states init (events_of (run env input [] init)) →
  ∃ d, get_infra_output h s = (Ok d, s, [])
    ∧ (d !! "ready" = Some (PBool true) ↔ _status s = READY)
    ∧ (_output s = None →
         d = <["ready" := PBool false]> {["status" := PStr (value (_status s))]}).
Proof.
  intros Hs. pose proof (ready_has_output env input s Hs) as Hinv.
  destruct (get_infra_output_ready h s) as (d & Hd & Hready).
  exists d. split; [done|]. split.
  - rewrite Hready. destruct (_output s) as [o|].
    + case_bool_decide; split; congruence.
    + split; [done|]. intros Hr. by destruct (Hinv Hr).
  - intros Hnone. rewrite (get_infra_output_empty h s Hnone) in Hd. congruence.
Qed.

Lemma output_query_ready_iff_witness :
  ∃ d, get_infra_output [] (self_of (run mock_env test_input [] init))
         = (Ok d, self_of (run mock_env test_input [] init), [])
    ∧ (d !! "ready" = Some (PBool true)
       ↔ _status (self_of (run mock_env test_input [] init)) = READY).
Proof.
  destruct (output_query_ready_iff mock_env test_input
              (self_of (run mock_env test_input [] init)) [])
    as (d & Hd & Hready & _).
  - apply list_elem_of_In. vm_compute. tauto.
  - exists d. split; [exact Hd | exact Hready].
Defined.
End InfraProofs.

(** * Properties of the CI/CD pipeline saga *)

Module CICDProofs.
Import CICD.

(* The queries stay folded while a cycle is followed. *)
#[local] Arguments get_deploy_details : simpl never.
#[local] Arguments get_status : simpl never.

(** ** Signals *)

(** The handlers of a batch only touch the two redeploy fields: the
    flag is raised and the last input of the batch is the one kept. *)
Lemma deliver_spec (batch : list DeployInput) (h : list Event) (s : Workflow) :
  deliver batch h s = (Ok tt, after_signals batch s, signal_events batch).
Proof.
  revert h s. induction batch as [|i rest IH]; intros h s.
  - by destruct s.
  - cbn [deliver]. unfold bind at 1.
    cbv [trigger_redeploy set_next_input set_redeploy_requested bind modify emit].
    cbn. rewrite IH. unfold after_signals. cbn.
    destruct rest as [|j rest]; [done|].
    cbn. destruct (last (j :: rest)) eqn:Hl; [done|].
    by apply last_None in Hl.
Qed.

Lemma omap_signal_events {B} (f : Event → option B) (batch : list DeployInput) :
  (∀ i, f (SignalReceived i) = None) →
  (∀ i, f (NextInputSet i) = None) →
  (∀ b, f (RedeployRequestedSet b) = None) →
  omap f (signal_events batch) = [].
Proof.
  intros H1 H2 H3. induction batch as [|i rest IH]; [done|].
  unfold signal_events in *. cbn. by rewrite H1, H2, H3.
Qed.

Lemma signal_events_elem (e : Event) (batch : list DeployInput) :
  e ∈ signal_events batch →
  ∃ i, e = SignalReceived i ∨ e = NextInputSet i ∨ e = RedeployRequestedSet true.
Proof.
  unfold signal_events. intros (i & Hi & _)%list_elem_of_bind.
  exists i. repeat (apply elem_of_cons in Hi as [Hi|Hi]; [by eauto|]).
  by apply elem_of_nil in Hi.
Qed.

(** ** Following a cycle path by path *)

Ltac ask_runtime :=
  match goal with
  | |- context [deliver (signals ?e ?h) ?h' ?s] =>
      rewrite (deliver_spec (signals e h) h' s);
      let b := fresh "batch" in generalize (signals e h); intros b
  | |- context [exec_checkout_and_build ?e ?h ?i] =>
      destruct (exec_checkout_and_build e h i) as [?|?]
  | |- context [exec_run_tests ?e ?h ?i] =>
      destruct (exec_run_tests e h i) as [[|]|?]
  | |- context [exec_deploy_artifact ?e ?h ?b ?t ?a] =>
      destruct (exec_deploy_artifact e h b t a) as [?|?]
  | |- context [exec_rollback ?e ?h ?t ?a] =>
      destruct (exec_rollback e h t a) as [?|?]
  | |- context [exec_notify ?e ?h ?m] =>
      destruct (exec_notify e h m) as [?|?]
  end.

Ltac unfold_workflow :=
  cbv [run redeploy_cycle wait_condition _pipeline _pipeline_try
       _pipeline_except try_except bind execute_activity set_status
       set_result set_redeploy_requested set_next_input modify emit
       history get ret raise parked out_of_fuel
       result_of self_of events_of].

Ltac tidy :=
  repeat first [rewrite <- app_assoc | rewrite app_nil_r | progress cbn].

Ltac pipeline_cases :=
  unfold_workflow; cbn; repeat (ask_runtime; cbn); tidy.

Ltac paths x :=
  let H := fresh in
  match goal with x := ?t |- _ => assert (H : x = t) by reflexivity end;
  clearbody x; revert H; pipeline_cases; intros ->; cbn.

(** Projections of a trace with batches of signals in it. *)
Ltac read_trace :=
  repeat first
    [ rewrite omap_app
    | rewrite omap_signal_events by done
    | progress cbn ].

(** Where in a trace can a given event be? *)
Ltac in_trace H :=
  repeat match type of H with
  | _ ∈ [] => by apply elem_of_nil in H
  | _ ∈ _ :: _ => apply elem_of_cons in H as [H|H]; [try discriminate H|]
  | _ ∈ signal_events _ => by apply signal_events_elem in H as [? [?|[?|?]]]
  | _ ∈ _ ++ _ => apply elem_of_app in H as [H|H]
  end.

Ltac present :=
  repeat first
    [ apply list_elem_of_here
    | apply list_elem_of_further
    | apply elem_of_app; right ].

Ltac absent :=
  let H := fresh in
  intros H;
  repeat (apply elem_of_cons in H as [H|H]; [discriminate H|]);
  by apply elem_of_nil in H.

(** ** The query *)

Lemma get_deploy_details_spec (h : list Event) (s : Workflow) :
  ∃ d, get_deploy_details h s = (Ok d, s, [])
    ∧ d !! "status" = Some (PStr (value (_status s)))
    ∧ d !! "application_url" = (λ r, PStr (application_url r)) <$> _result s
    ∧ d !! "artifact" = (λ r, PStr (artifact r)) <$> _result s
    ∧ d !! "healthy" = (λ r, PBool (healthy r)) <$> _result s.
Proof.
  unfold get_deploy_details, bind, get, ret; cbn.
  destruct (_result s); cbn; eexists; (split; [reflexivity|]).
  all: repeat split.
  all: by repeat (rewrite lookup_insert_ne; [|done]);
          rewrite ?lookup_insert_eq, ?lookup_singleton_eq, ?lookup_singleton_ne.
Qed.

(** The end-to-end scenario of [test_all.py]: one cycle, then the
    workflow waits for signals. *)
Example test_cicd :
  let x := run (mock_env fixed_uuid no_signals) 1 test_input [] init in
  result_of x = Parked
  ∧ result_of (get_status (events_of x) (self_of x)) = Ok "COMPLETED"
  ∧ invocations (events_of x)
    = [CheckoutAndBuild test_input; RunTests test_input;
       DeployArtifact (checkout_and_build "0a1b2c3d" test_input)
         "1.2.3.4" "azureadmin";
       Notify "deployed app-0a1b2c3d.tar.gz to 1.2.3.4"].
Proof. by repeat split. Qed.

(** ** C2 *)

(** C2, as stated, fails in its last part: started without a target
    host, the run raises, but the status is still [PENDING]; nothing
    assigns [FAILED]. *)
Lemma no_host_status_stays_pending :
  let x := run (mock_env fixed_uuid no_signals) 1 no_host_input [] init in
  result_of x = Raise (ValueError "no target_host - has the infra team provisioned the VM yet?")
  ∧ _status (self_of x) = PENDING
  ∧ _status (self_of x) ≠ FAILED.
Proof. by repeat split. Qed.

(** C2, amended: with an empty target host [run] raises the
    precondition error at once; it invokes no activity (so nothing is
    retried), assigns no field and emits no event: the workflow object
    is as it was, with status [PENDING] for a fresh one. *)
Theorem no_host_fails_fast (env : Env) (fuel : nat) (input : DeployInput)
    (h : list Event) (s : Workflow) :
  target_host input = "" →
  run env fuel input h s
    = (Raise (ValueError "no target_host - has the infra team provisioned the VM yet?"),
       s, [])
  ∧ invocations (events_of (run env fuel input h s)) = []
  ∧ _status (self_of (run env fuel input [] init)) = PENDING.
Proof.
  intros Hhost. unfold run, truthy. rewrite Hhost. by cbn.
Qed.

Lemma no_host_fails_fast_witness :
  target_host no_host_input = ""
  ∧ run (mock_env fixed_uuid no_signals) 3 no_host_input [] init
    = (Raise (ValueError "no target_host - has the infra team provisioned the VM yet?"),
       init, []).
Proof.
  split; [reflexivity|].
  apply (no_host_fails_fast (mock_env fixed_uuid no_signals) 3 no_host_input
           [] init).
  reflexivity.
Defined.

(** ** C4 *)

(** C4, as stated, fails in its last part: when the tests fail and the
    failure notification fails too, what [_pipeline] raises is the
    notification's error, not the test failure. *)
Lemma notification_error_replaces_test_failure :
  let x := _pipeline red_tests_notify_down_env test_input [] init in
  Completed (RunTests test_input) (VBool false) ∈ events_of x
  ∧ result_of x = Raise unreachable
  ∧ result_of x ≠ Raise (RuntimeError "tests failed, not deploying broken code").
Proof.
  cbn. split; [present|]. by split.
Qed.

(** C4, amended: in a cycle whose test step returns failure the
    activities invoked are build, tests, rollback and the failure
    notification, so deploy is never invoked; the cycle ends in
    [ROLLED_BACK] when the rollback completed and in [FAILED] when it
    failed; the cycle raises, and when the failure notification was
    delivered what it raises is the test failure. *)
Theorem tests_failed_cycle (env : Env) (input : DeployInput)
    (h : list Event) (s : Workflow) :
  let x := _pipeline env input h s in
  let undo := Rollback (target_host input) (admin_username input) in
  let report := Notify "deploy failed: tests failed, not deploying broken code" in
  Completed (RunTests input) (VBool false) ∈ events_of x →
  invocations (events_of x)
    = [CheckoutAndBuild input; RunTests input; undo; report]
  ∧ (∀ b t a, DeployArtifact b t a ∉ invocations (events_of x))
  ∧ ((Completed undo VNone ∈ events_of x
      ∧ statuses (events_of x) = [BUILDING; TESTING; FAILED; ROLLED_BACK]
      ∧ _status (self_of x) = ROLLED_BACK)
     ∨ ((∃ e, Failed undo e ∈ events_of x)
        ∧ statuses (events_of x) = [BUILDING; TESTING; FAILED]
        ∧ _status (self_of x) = FAILED))
  ∧ (∃ e, result_of x = Raise e)
  ∧ (Completed report VNone ∈ events_of x →
     result_of x = Raise (RuntimeError "tests failed, not deploying broken code")).
Proof.
  intros x undo report. subst undo report. paths x.
  all: intros Hin; in_trace Hin.
  all: split; [by read_trace|].
  all: split; [intros ???; read_trace; absent|].
  all: split; [first [left; split; [present|by read_trace]
                    | right; split; [eexists; present|by read_trace]]|].
  all: split; [by eexists|].
  all: intros Hok; in_trace Hok; done.
Qed.

Lemma tests_failed_cycle_witness :
  Completed (RunTests test_input) (VBool false)
    ∈ events_of (_pipeline red_tests_env test_input [] init)
  ∧ invocations (events_of (_pipeline red_tests_env test_input [] init))
    = [CheckoutAndBuild test_input; RunTests test_input;
       Rollback "1.2.3.4" "azureadmin";
       Notify "deploy failed: tests failed, not deploying broken code"].
Proof.
  assert (Hin : Completed (RunTests test_input) (VBool false)
                  ∈ events_of (_pipeline red_tests_env test_input [] init)).
  { apply list_elem_of_In. vm_compute. tauto. }
  split; [exact Hin|].
  exact (proj1 (tests_failed_cycle red_tests_env test_input [] init Hin)).
Defined.

(** ** C6 *)

(** C6: when build, tests and deploy complete and the success
    notification fails, the cycle is a failed one: the status goes
    through [COMPLETED] and is then set to [FAILED], the rollback is
    invoked (ending in [ROLLED_BACK] if it completes), the failure
    notification is sent with the notification's own error, and
    [_pipeline] raises, although the deploy result is stored. *)
Theorem failed_notification_fails_cycle (env : Env) (input : DeployInput)
    (h : list Event) (s : Workflow)
    (b : BuildResult) (r : DeployResult) (e : exn) :
  let x := _pipeline env input h s in
  let deploy := DeployArtifact b (target_host input) (admin_username input) in
  let announce :=
    Notify ("deployed " +:+ artifact_name b +:+ " to " +:+ target_host input) in
  let undo := Rollback (target_host input) (admin_username input) in
  Completed (CheckoutAndBuild input) (VBuild b) ∈ events_of x →
  Completed (RunTests input) (VBool true) ∈ events_of x →
  Completed deploy (VDeploy r) ∈ events_of x →
  Failed announce e ∈ events_of x →
  (∃ e', result_of x = Raise e')
  ∧ invocations (events_of x)
    = [CheckoutAndBuild input; RunTests input; deploy; announce; undo;
       Notify ("deploy failed: " +:+ str e)]
  ∧ ((statuses (events_of x)
        = [BUILDING; TESTING; DEPLOYING; COMPLETED; FAILED; ROLLED_BACK]
      ∧ _status (self_of x) = ROLLED_BACK)
     ∨ (statuses (events_of x)
          = [BUILDING; TESTING; DEPLOYING; COMPLETED; FAILED]
        ∧ _status (self_of x) = FAILED))
  ∧ _result (self_of x) = Some r
  ∧ (Completed (Notify ("deploy failed: " +:+ str e)) VNone ∈ events_of x →
     result_of x = Raise e).
Proof.
  intros x deploy announce undo. subst deploy announce undo. paths x.
  all: intros Hb Ht Hd Hn.
  all: in_trace Hd; in_trace Hn.
  all: injection Hd as -> ->; injection Hn as ->; clear Hb Ht.
  all: split; [by eexists|].
  all: split; [by read_trace|].
  all: split; [first [left; split; by read_trace | right; split; by read_trace]|].
  all: split; [done|].
  all: intros Hok; in_trace Hok; done.
Qed.

Lemma failed_notification_fails_cycle_witness :
  statuses (events_of (_pipeline notify_down_env test_input [] init))
    = [BUILDING; TESTING; DEPLOYING; COMPLETED; FAILED; ROLLED_BACK]
  ∧ result_of (_pipeline notify_down_env test_input [] init)
    = Raise unreachable.
Proof.
  pose proof (failed_notification_fails_cycle notify_down_env test_input
                [] init
                (checkout_and_build "0a1b2c3d" test_input)
                (deploy_artifact (checkout_and_build "0a1b2c3d" test_input)
                   "1.2.3.4" "azureadmin")
                unreachable) as H.
  cbv zeta in H.
  destruct H as (_ & _ & Hst & _).
  - apply list_elem_of_In. vm_compute. tauto.
  - apply list_elem_of_In. vm_compute. tauto.
  - apply list_elem_of_In. vm_compute. tauto.
  - apply list_elem_of_In. vm_compute. tauto.
  - split; [|reflexivity].
    destruct Hst as [[Hst _]|[_ Hst]]; [exact Hst | discriminate Hst].
Defined.

(** ** C9 *)

(** C9: [deploy_artifact] builds the URL as [http://<target_host>:8080]
    and reports healthy.  After any cycle that succeeds with this
    activity, [get_deploy_details] shows that URL for the cycle's target
    host, [healthy] true and status [COMPLETED].  With the input of
    [test_all.py] the run deploys and parks, and the URL is
    [http://1.2.3.4:8080]. *)
Theorem application_url_from_target_host :
  (∀ b t a,
     application_url (deploy_artifact b t a) = "http://" +:+ t +:+ ":8080"
     ∧ healthy (deploy_artifact b t a) = true)
  ∧ (∀ env input h s r,
       let x := _pipeline env input h s in
       (∀ h' b t a, exec_deploy_artifact env h' b t a = Done (deploy_artifact b t a)) →
       result_of x = Ok r →
       ∃ d, get_deploy_details (h ++ events_of x) (self_of x) = (Ok d, self_of x, [])
         ∧ d !! "application_url"
             = Some (PStr ("http://" +:+ target_host input +:+ ":8080"))
         ∧ d !! "healthy" = Some (PBool true)
         ∧ d !! "status" = Some (PStr "COMPLETED"))
  ∧ (∀ uuid8 fuel,
       let x := run (mock_env uuid8 no_signals) (S fuel) test_input [] init in
       result_of x = Parked
       ∧ ∃ d, get_deploy_details (events_of x) (self_of x) = (Ok d, self_of x, [])
         ∧ d !! "application_url" = Some (PStr "http://1.2.3.4:8080")
         ∧ d !! "healthy" = Some (PBool true)
         ∧ d !! "status" = Some (PStr "COMPLETED")).
Proof.
  split; [done|]. split.
  - intros env input h s r x Hdeploy.
    assert (Hx : x = _pipeline env input h s) by reflexivity.
    clearbody x. revert Hx. unfold_workflow. cbn.
    repeat (first [rewrite Hdeploy | ask_runtime]; cbn). all: tidy.
    all: intros -> Hok; try discriminate Hok.
    match goal with |- context [get_deploy_details ?h' ?s'] =>
      destruct (get_deploy_details_spec h' s') as (d & Hd & Hs & Hu & _ & Hh)
    end.
    exists d. by rewrite Hd, Hs, Hu, Hh.
  - intros uuid8 fuel x. subst x. split; [reflexivity|].
    match goal with |- context [get_deploy_details ?h' ?s'] =>
      destruct (get_deploy_details_spec h' s') as (d & Hd & Hs & Hu & _ & Hh)
    end.
    exists d. by rewrite Hd, Hs, Hu, Hh.
Qed.

(** ** C10 *)

(** C10, as stated, fails: a redeploy whose build, tests and deploy
    complete and whose success notification fails is a failed cycle, yet
    the stored result is the new one.  After the first deployment of
    [app-aaaa1111.tar.gz] and the failed redeploy of
    [app-bbbb2222.tar.gz], the details show the second artifact with
    status [ROLLED_BACK]. *)
Lemma failed_redeploy_overwrites_result :
  let x := run (notify_down_later_env [push_signal]) 2 ops_input [] init in
  let first := deploy_artifact (checkout_and_build "" ops_input) "1.2.3.4" "ops" in
  let second := deploy_artifact (checkout_and_build "" push_signal) "1.2.3.4" "ops" in
  result_of x = Raise unreachable
  ∧ statuses (events_of x)
    = [BUILDING; TESTING; DEPLOYING; COMPLETED;
       BUILDING; TESTING; DEPLOYING; COMPLETED; FAILED; ROLLED_BACK]
  ∧ results (events_of x) = [first; first; second]
  ∧ _result (self_of x) = Some second
  ∧ artifact first = "app-aaaa1111.tar.gz"
  ∧ artifact second = "app-bbbb2222.tar.gz"
  ∧ ∃ d, result_of (get_deploy_details (events_of x) (self_of x)) = Ok d
      ∧ d !! "artifact" = Some (PStr "app-bbbb2222.tar.gz")
      ∧ d !! "status" = Some (PStr "ROLLED_BACK").
Proof.
  cbv zeta. repeat (split; [reflexivity|]).
  match goal with |- context [get_deploy_details ?h' ?s'] =>
    destruct (get_deploy_details_spec h' s') as (d & Hd & Hs & _ & Ha & _)
  end.
  exists d. by rewrite Hd, Hs, Ha.
Qed.

(** The failure path assigns statuses only. *)
Lemma except_keeps_result (env : Env) (input : DeployInput) (e : exn)
    (h : list Event) (s : Workflow) :
  _result (self_of (_pipeline_except env input e h s)) = _result s
  ∧ results (events_of (_pipeline_except env input e h s)) = [].
Proof.
  pose (x := _pipeline_except env input e h s). fold x. paths x.
  all: by read_trace.
Qed.

(** C10, amended: the [except] handler of [_pipeline] never assigns
    [self._result].  A failed cycle therefore leaves the stored result
    as it was, and [get_deploy_details] keeps reporting the same URL,
    artifact and health, unless the deploy step had completed: then
    the failure is that of the success notification and the stored
    result is the one of this cycle. *)
Theorem failed_cycle_stored_result (env : Env) (input : DeployInput)
    (h : list Event) (s : Workflow) :
  let x := _pipeline env input h s in
  (∀ e0 h0 s0,
     _result (self_of (_pipeline_except env input e0 h0 s0)) = _result s0
     ∧ results (events_of (_pipeline_except env input e0 h0 s0)) = [])
  ∧ ((∃ e, result_of x = Raise e) →
     ((∀ b t a v, Completed (DeployArtifact b t a) v ∉ events_of x)
      ∧ results (events_of x) = []
      ∧ _result (self_of x) = _result s
      ∧ (∀ h1 h2 d d',
           result_of (get_deploy_details h1 s) = Ok d →
           result_of (get_deploy_details h2 (self_of x)) = Ok d' →
           d' !! "application_url" = d !! "application_url"
           ∧ d' !! "artifact" = d !! "artifact"
           ∧ d' !! "healthy" = d !! "healthy"))
     ∨ (∃ b r e',
          Completed (DeployArtifact b (target_host input) (admin_username input))
                    (VDeploy r) ∈ events_of x
          ∧ Failed (Notify ("deployed " +:+ artifact_name b +:+ " to "
                            +:+ target_host input)) e' ∈ events_of x
          ∧ results (events_of x) = [r]
          ∧ _result (self_of x) = Some r)).
Proof.
  intros x. split; [intros; apply except_keeps_result|].
  paths x.
  all: intros [e' He']; try discriminate He'.
  all: first
    [ left; split; [intros ???? Hin; by in_trace Hin|];
      split; [by read_trace|]; split; [done|];
      intros h1 h2 d d' Hd Hd';
      destruct (get_deploy_details_spec h1 s) as (? & E1 & _ & ? & ? & ?);
      match type of Hd' with context [get_deploy_details h2 ?s'] =>
        destruct (get_deploy_details_spec h2 s') as (? & E2 & _ & ? & ? & ?)
      end;
      rewrite E1 in Hd; rewrite E2 in Hd'; cbn in *; simplify_eq;
      repeat split; congruence
    | right; do 3 eexists; split; [present|];
      split; [present|]; split; [by read_trace|done] ].
Qed.

(** ** C7 *)

(** Two handlers in a row leave the workflow as the second alone would. *)
Lemma second_signal_overwrites (s1 s2 : DeployInput) (h : list Event)
    (s : Workflow) :
  self_of (deliver [s1; s2] h s) = self_of (deliver [s2] h s)
  ∧ _next_input (self_of (deliver [s1; s2] h s)) = Some s2
  ∧ _redeploy_requested (self_of (deliver [s1; s2] h s)) = true.
Proof. by rewrite !deliver_spec. Qed.

(** C7: a saga parked in [wait_condition] receives two redeploy
    signals before it resumes, and none afterwards.  The second handler
    overwrites the input the first one stored; the loop then runs one
    cycle, on the second signal's input (with the target defaulted),
    and parks again or fails: nothing is ever run for the first signal. *)
Theorem last_signal_wins (env : Env) (input : DeployInput)
    (h : list Event) (s : Workflow) (s1 s2 : DeployInput) (fuel : nat) :
  let x := serve env (S (S fuel)) input h s in
  _redeploy_requested s = false →
  signals env (h ++ [Waiting]) = [s1; s2] →
  (∀ h', length h + 1 < length h' → signals env h' = []) →
  cycles (events_of x) = [default_target input s2]
  ∧ (result_of x = Parked ∨ ∃ e, result_of x = Raise e)
  ∧ (∀ h0 s0, self_of (deliver [s1; s2] h0 s0) = self_of (deliver [s2] h0 s0)).
Proof.
  intros x Hflag Hfirst Hquiet.
  cut (cycles (events_of x) = [default_target input s2]
       ∧ (result_of x = Parked ∨ ∃ e, result_of x = Raise e)).
  { intros [? ?]. by repeat split. }
  assert (Hx : x = serve env (S (S fuel)) input h s) by reflexivity.
  clearbody x; revert Hx.
  destruct s as [st res flag nxt]; cbn in Hflag; subst flag.
  cbv [serve]; unfold_workflow; cbn.
  rewrite app_nil_r, Hfirst; cbn.
  repeat (first
    [ rewrite Hquiet by (rewrite ?length_app; cbn; lia)
    | ask_runtime ]; cbn).
  all: intros ->; cbn.
  all: split; [done|]; eauto.
Qed.

Lemma last_signal_wins_witness :
  cycles (events_of (serve (mock_env fixed_uuid
                              (only_when_parked [move_signal; push_signal]))
                       2 ops_input [] init))
    = [default_target ops_input push_signal]
  ∧ target_host (default_target ops_input push_signal) = "1.2.3.4".
Proof.
  split; [|reflexivity].
  apply (last_signal_wins
           (mock_env fixed_uuid (only_when_parked [move_signal; push_signal]))
           ops_input [] init move_signal push_signal 0).
  - reflexivity.
  - reflexivity.
  - intros [|e1 [|e2 l]]; cbn; [lia|lia|intros _].
    by destruct e1.
Defined.

(** ** C8 *)

(** Woken by a batch of signals, [wait_condition] returns with the
    flag raised and the last input of the batch stored. *)
Lemma wait_condition_woken (env : Env) (h : list Event) (s : Workflow)
    (sig : DeployInput) :
  _redeploy_requested s = false →
  last (signals env (h ++ [Waiting])) = Some sig →
  wait_condition env h s
    = (Ok tt, mkWorkflow (_status s) (_result s) true (Some sig),
       Waiting :: signal_events (signals env (h ++ [Waiting]))).
Proof.
  intros Hflag Hlast.
  cbv [wait_condition bind get emit history parked].
  rewrite Hflag, app_nil_r.
  destruct (signals env (h ++ [Waiting])) as [|i rest] eqn:E; [done|].
  rewrite deliver_spec. unfold after_signals. by rewrite Hlast.
Qed.

(** C8, as stated, fails: the admin account is not defaulted on its
    own.  A redeploy request that names a host and leaves the admin
    account out is run with the account it carries (the dataclass
    default, or the empty string), not with the account of the original
    input: the defaulting is keyed on the target host alone. *)
Lemma admin_account_not_defaulted :
  let x := redeploy_cycle (redeploy_env [move_signal]) ops_input [] init in
  let y := redeploy_cycle (redeploy_env [move_signal_blank_admin]) ops_input [] init in
  admin_username ops_input = "ops"
  ∧ cycles (events_of x) = [move_signal]
  ∧ admin_username move_signal = "azureadmin"
  ∧ cycles (events_of y) = [move_signal_blank_admin]
  ∧ admin_username move_signal_blank_admin = ""
  ∧ DeployArtifact (checkout_and_build "" move_signal) "5.6.7.8" ""
      ∈ invocations (events_of y).
Proof.
  cbv zeta. repeat (split; [reflexivity|]).
  apply list_elem_of_In. vm_compute. tauto.
Qed.

(** C8, amended: when a redeploy signal has been received, the loop
    clears the pending flag and then runs one build, test, deploy cycle,
    which starts by setting the same status field to [BUILDING].  The
    input of the cycle is the signalled one when it names a target host;
    when its target host is empty, both the target host and the admin
    account are taken from the original input, whatever admin account
    the signal carried.  The other fields are always the signal's. *)
Theorem redeploy_defaults_target (env : Env) (input : DeployInput)
    (h : list Event) (s : Workflow) (sig : DeployInput) :
  let x := redeploy_cycle env input h s in
  (_redeploy_requested s = true ∧ _next_input s = Some sig)
  ∨ (_redeploy_requested s = false
     ∧ last (signals env (h ++ [Waiting])) = Some sig) →
  (∃ wake rest,
     events_of x = wake ++ RedeployRequestedSet false :: rest
     ∧ invocations wake = [] ∧ statuses wake = []
     ∧ cycles rest = [default_target input sig]
     ∧ head (statuses rest) = Some BUILDING)
  ∧ (target_host sig = "" →
       target_host (default_target input sig) = target_host input
       ∧ admin_username (default_target input sig) = admin_username input)
  ∧ (target_host sig ≠ "" → default_target input sig = sig)
  ∧ repo_url (default_target input sig) = repo_url sig
  ∧ branch (default_target input sig) = branch sig
  ∧ commit_sha (default_target input sig) = commit_sha sig
  ∧ build_command (default_target input sig) = build_command sig
  ∧ test_command (default_target input sig) = test_command sig.
Proof.
  intros x Hsig. split.
  - assert (Hx : x = redeploy_cycle env input h s) by reflexivity.
    clearbody x. revert Hx.
    destruct Hsig as [[Hflag Hnext]|[Hflag Hlast]].
    + destruct s as [st res flag nxt]; cbn in Hflag, Hnext; subst flag nxt.
      pipeline_cases. all: intros ->; cbn.
      all: exists []; eexists; split; [reflexivity|].
      all: repeat split; by read_trace.
    + unfold redeploy_cycle. unfold bind at 1.
      rewrite (wait_condition_woken env h s sig Hflag Hlast).
      generalize (signals env (h ++ [Waiting])). intros woke.
      pipeline_cases. all: intros ->; cbn.
      all: exists (Waiting :: signal_events woke); eexists; split; [reflexivity|].
      all: repeat split; by read_trace.
  - unfold default_target, truthy.
    destruct (String.eqb_spec (target_host sig) "") as [->|Hne]; cbn.
    + by repeat split.
    + by repeat split.
Qed.

Lemma redeploy_defaults_target_witness :
  target_host (default_target ops_input push_signal) = target_host ops_input
  ∧ admin_username (default_target ops_input push_signal)
    = admin_username ops_input.
Proof.
  destruct (redeploy_defaults_target (redeploy_env [push_signal]) ops_input
              [] init push_signal) as (_ & Hhost & _).
  - right. split; reflexivity.
  - exact (Hhost eq_refl).
Defined.
End CICDProofs.

(** * Further properties of the infra provisioning saga *)

Module InfraMore.
Import Infra InfraProofs.

Ltac found :=
  repeat first [ apply list_elem_of_here | apply list_elem_of_further ].

Ltac which H :=
  repeat (apply elem_of_cons in H as [H|H]; [try discriminate H|]);
  try (by apply elem_of_nil in H).

(** X1: A successful run invokes init, plan, apply and validate once each, in
    that order; apply is given the plan file the plan step returned and
    validate the output apply returned; the statuses assigned are the
    happy path and the output returned is apply's, stored in the
    workflow. *)
Theorem successful_run_trace (env : Env) (input : InfraInput) (o : InfraOutput) :
  let x := run env input [] init in
  result_of x = Ok o →
  ∃ plan,
    invocations (events_of x)
      = [TerraformInit input; TerraformPlan input;
         TerraformApply input (plan_file plan); ValidateInfra o]
    ∧ Completed (TerraformPlan input) (VPlan plan) ∈ events_of x
    ∧ Completed (TerraformApply input (plan_file plan)) (VOutput o) ∈ events_of x
    ∧ statuses (events_of x)
        = [INITIALIZING; PLANNING; PROVISIONING; VALIDATING; READY]
    ∧ self_of x = mkWorkflow READY (Some o) true.
Proof.
  intros x. paths x. all: intros Hok; try discriminate Hok.
  injection Hok as ->. eexists. split; [reflexivity|].
  split; [found|]. split; [found|]. by split.
Qed.

Lemma successful_run_trace_witness :
  statuses (events_of (run mock_env test_input [] init))
    = [INITIALIZING; PLANNING; PROVISIONING; VALIDATING; READY].
Proof.
  destruct (successful_run_trace mock_env test_input
              (terraform_apply test_input "./terraform/tfplan") eq_refl)
    as (plan & _ & _ & _ & Hst & _).
  exact Hst.
Defined.

(** X2: What [run] raises is the failure that broke the run: the error of
    the init, plan, apply or validate invocation that failed, or the
    health-check error naming the VM.  The teardown never changes that,
    whether it completes or fails, and it is invoked at most once. *)
Theorem run_raises_the_original_failure (env : Env) (input : InfraInput) :
  let x := run env input [] init in
  (∀ a e, Failed a e ∈ events_of x → a ≠ TerraformDestroy input →
          result_of x = Raise e)
  ∧ (∀ o, Completed (ValidateInfra o) (VBool false) ∈ events_of x →
          result_of x = Raise (RuntimeError (vm_name o +:+ " failed health check")))
  ∧ (∀ de, Failed (TerraformDestroy input) de ∈ events_of x →
           _status (self_of x) = FAILED ∧ ∃ e, result_of x = Raise e)
  ∧ (teardowns (events_of x) = [] ∨ teardowns (events_of x) = [input]).
Proof.
  intros x. paths x.
  all: split; [intros act err Hin Hne; which Hin; simplify_eq; done|].
  all: split; [intros out Hin; which Hin; simplify_eq; done|].
  all: split; [intros derr Hin; which Hin; (split; [done|eexists; done])|].
  all: first [by left | by right].
Qed.

Lemma run_raises_the_original_failure_witness :
  result_of (run stuck_teardown_env test_input [] init)
    = Raise (RuntimeError "vm-test-test failed health check")
  ∧ _status (self_of (run stuck_teardown_env test_input [] init)) = FAILED.
Proof.
  destruct (run_raises_the_original_failure stuck_teardown_env test_input)
    as (_ & Hdown & Hstuck & _).
  split.
  - apply (Hdown (terraform_apply test_input "./terraform/tfplan")).
    apply list_elem_of_In. vm_compute. tauto.
  - apply (Hstuck (ActivityError "terraform destroy: exit status 1")).
    apply list_elem_of_In. vm_compute. tauto.
Defined.

(** X3: The statuses a run assigns are the happy path up to the step that
    failed, then [FAILED]; [DESTROYING] comes in between exactly when the
    run got as far as [VALIDATING].  A run ends in [READY] when it
    returns and in [FAILED] when it raises, never in between. *)
Theorem status_sequence (env : Env) (input : InfraInput) :
  let x := run env input [] init in
  statuses (events_of x)
    ∈ [ [INITIALIZING; FAILED];
        [INITIALIZING; PLANNING; FAILED];
        [INITIALIZING; PLANNING; PROVISIONING; FAILED];
        [INITIALIZING; PLANNING; PROVISIONING; VALIDATING; DESTROYING; FAILED];
        [INITIALIZING; PLANNING; PROVISIONING; VALIDATING; READY] ]
  ∧ last (statuses (events_of x)) = Some (_status (self_of x))
  ∧ ((∃ o, result_of x = Ok o) ↔ _status (self_of x) = READY)
  ∧ ((∃ e, result_of x = Raise e) ↔ _status (self_of x) = FAILED).
Proof.
  intros x. paths x.
  all: split; [found|]. all: split; [done|].
  all: split; split; try done; eauto; by intros [? ?].
Qed.

(** X4: Every activity a run schedules carries a bounded retry policy, the
    teardown included: three attempts, and a timeout of at most ten
    minutes. *)
Theorem every_invocation_is_bounded (env : Env) (input : InfraInput)
    (a : Activity) (t : nat) (p : RetryPolicy) :
  Scheduled a t p ∈ events_of (run env input [] init) →
  maximum_attempts p = 3 ∧ t ≤ 600.
Proof.
  revert a t p. run_cases; intros act t p Hin; which Hin; simplify_eq; cbn; lia.
Qed.

Lemma every_invocation_is_bounded_witness :
  maximum_attempts destroy_policy = 3 ∧ 600 ≤ 600.
Proof.
  apply (every_invocation_is_bounded unhealthy_env test_input
           (TerraformDestroy test_input) 600 destroy_policy).
  apply list_elem_of_In. vm_compute. tauto.
Defined.

(** X5: With the mocked activities every input is provisioned: the run
    returns a VM named after the project and the environment, handing
    the admin account through, and the query then reports it ready at
    the fixed address. *)
Theorem mocked_run_provisions (input : InfraInput) :
  let x := run mock_env input [] init in
  ∃ o d,
    result_of x = Ok o
    ∧ vm_name o = "vm-" +:+ project_name input +:+ "-" +:+ environment input
    ∧ resource_group_name o = "rg-" +:+ project_name input +:+ "-" +:+ environment input
    ∧ out_admin_username o = admin_username input
    ∧ _status (self_of x) = READY
    ∧ result_of (get_infra_output (events_of x) (self_of x)) = Ok d
    ∧ d !! "ready" = Some (PBool true)
    ∧ d !! "vm_public_ip" = Some (PStr "20.185.72.14")
    ∧ d !! "vm_name" = Some (PStr (vm_name o)).
Proof.
  intros x. subst x. do 2 eexists.
  repeat (split; [reflexivity|]).
  by repeat (rewrite lookup_insert_ne; [|done]); rewrite ?lookup_insert_eq.
Qed.

(** X6: Once an output is stored the query exposes exactly six entries, the
    status, the readiness and four fields of the output; the network
    names and the private address are not among them. *)
Theorem output_query_fields (h : list Event) (s : Workflow) (o : InfraOutput) :
  _output s = Some o →
  ∃ d, get_infra_output h s = (Ok d, s, [])
    ∧ d !! "vm_public_ip" = Some (PStr (vm_public_ip o))
    ∧ d !! "vm_name" = Some (PStr (vm_name o))
    ∧ d !! "admin_username" = Some (PStr (out_admin_username o))
    ∧ d !! "resource_group" = Some (PStr (resource_group_name o))
    ∧ d !! "status" = Some (PStr (value (_status s)))
    ∧ dom d = {[ "status"; "ready"; "vm_public_ip"; "vm_name";
                 "admin_username"; "resource_group" ]}.
Proof.
  intros Ho. unfold get_infra_output, bind, get, ret; cbn. rewrite Ho; cbn.
  eexists. split; [reflexivity|].
  repeat (split; [by repeat (rewrite lookup_insert_ne; [|done]);
                     rewrite ?lookup_insert_eq, ?lookup_singleton_eq|]).
  rewrite !dom_insert_L, dom_singleton_L.
  apply set_eq. intros k. rewrite !elem_of_union, !elem_of_singleton. tauto.
Qed.

Lemma output_query_fields_witness :
  ∃ d, get_infra_output [] (self_of (run mock_env test_input [] init))
         = (Ok d, self_of (run mock_env test_input [] init), [])
    ∧ d !! "vm_name" = Some (PStr "vm-test-test").
Proof.
  destruct (output_query_fields [] (self_of (run mock_env test_input [] init))
              (terraform_apply test_input "./terraform/tfplan") eq_refl)
    as (d & Hd & _ & Hn & _).
  exists d. split; [exact Hd | exact Hn].
Defined.
End InfraMore.

(** * Further properties of the CI/CD pipeline saga *)

Module CICDMore.
Import CICD CICDProofs.

#[local] Arguments get_deploy_details : simpl never.
#[local] Arguments get_status : simpl never.

(** X7: A successful cycle invokes build, tests, deploy and the success
    notification once each, in that order; deploy is given the build the
    first step returned and the target of the cycle's input; the statuses
    assigned are the happy path, the result returned is deploy's and it
    is the one stored; no rollback is invoked. *)
Theorem successful_cycle_trace (env : Env) (input : DeployInput)
    (h : list Event) (s : Workflow) (r : DeployResult) :
  let x := _pipeline env input h s in
  result_of x = Ok r →
  ∃ b,
    invocations (events_of x)
      = [CheckoutAndBuild input; RunTests input;
         DeployArtifact b (target_host input) (admin_username input);
         Notify ("deployed " +:+ artifact_name b +:+ " to " +:+ target_host input)]
    ∧ Completed (CheckoutAndBuild input) (VBuild b) ∈ events_of x
    ∧ Completed (DeployArtifact b (target_host input) (admin_username input))
                (VDeploy r) ∈ events_of x
    ∧ statuses (events_of x) = [BUILDING; TESTING; DEPLOYING; COMPLETED]
    ∧ results (events_of x) = [r]
    ∧ rollbacks (events_of x) = []
    ∧ _status (self_of x) = COMPLETED
    ∧ _result (self_of x) = Some r.
Proof.
  intros x. paths x. all: intros Hok; try discriminate Hok.
  injection Hok as ->. eexists.
  split; [by read_trace|]. split; [present|]. split; [present|].
  repeat split; by read_trace.
Qed.

Lemma successful_cycle_trace_witness :
  statuses (events_of (_pipeline (mock_env fixed_uuid no_signals) test_input [] init))
    = [BUILDING; TESTING; DEPLOYING; COMPLETED].
Proof.
  destruct (successful_cycle_trace (mock_env fixed_uuid no_signals) test_input
              [] init
              (deploy_artifact (checkout_and_build "0a1b2c3d" test_input)
                 "1.2.3.4" "azureadmin") eq_refl)
    as (b & _ & _ & _ & Hst & _).
  exact Hst.
Defined.

(** X8: A cycle either returns, in [COMPLETED] and with no rollback, or
    raises, in [FAILED] or [ROLLED_BACK] after exactly one rollback on
    the target of the cycle's input; it ends in [ROLLED_BACK] exactly
    when that rollback completed.  The last activity of a cycle is
    always a notification, and [PENDING] and [CHECKING_OUT] are never
    assigned. *)
Theorem cycle_outcome (env : Env) (input : DeployInput)
    (h : list Event) (s : Workflow) :
  let x := _pipeline env input h s in
  (((∃ r, result_of x = Ok r)
    ∧ _status (self_of x) = COMPLETED
    ∧ rollbacks (events_of x) = [])
   ∨ ((∃ e, result_of x = Raise e)
      ∧ (_status (self_of x) = FAILED ∨ _status (self_of x) = ROLLED_BACK)
      ∧ rollbacks (events_of x) = [(target_host input, admin_username input)]
      ∧ (_status (self_of x) = ROLLED_BACK ↔
           (Completed (Rollback (target_host input) (admin_username input)) VNone
              ∈ events_of x))))
  ∧ (∃ m, last (invocations (events_of x)) = Some (Notify m))
  ∧ (PENDING ∉ statuses (events_of x))
  ∧ (CHECKING_OUT ∉ statuses (events_of x)).
Proof.
  intros x. paths x.
  all: split;
    [ first
        [ left; split; [by eexists|]; split; by read_trace
        | right; split; [by eexists|];
          split; [first [by left | by right]|];
          split; [by read_trace|];
          split; [intros Hst; first [discriminate Hst | present]
                |intros Hin; first [done | in_trace Hin]] ]
    | ].
  all: split; [eexists; by read_trace|].
  all: split; read_trace; absent.
Qed.

(** X9: The step that fails ends the attempt: after a failed build neither
    tests nor deploy are invoked, after failed tests no deploy; what
    follows is the rollback and the failure notification carrying the
    error.  When deploy itself fails no result is stored. *)
Theorem failed_step_skips_the_rest (env : Env) (input : DeployInput)
    (h : list Event) (s : Workflow) :
  let x := _pipeline env input h s in
  let undo := Rollback (target_host input) (admin_username input) in
  (∀ e, Failed (CheckoutAndBuild input) e ∈ events_of x →
        invocations (events_of x)
          = [CheckoutAndBuild input; undo; Notify ("deploy failed: " +:+ str e)]
        ∧ _result (self_of x) = _result s)
  ∧ (∀ e, Failed (RunTests input) e ∈ events_of x →
          invocations (events_of x)
            = [CheckoutAndBuild input; RunTests input; undo;
               Notify ("deploy failed: " +:+ str e)]
          ∧ _result (self_of x) = _result s)
  ∧ (∀ b e, Failed (DeployArtifact b (target_host input) (admin_username input)) e
              ∈ events_of x →
            invocations (events_of x)
              = [CheckoutAndBuild input; RunTests input;
                 DeployArtifact b (target_host input) (admin_username input);
                 undo; Notify ("deploy failed: " +:+ str e)]
            ∧ results (events_of x) = []
            ∧ _result (self_of x) = _result s).
Proof.
  intros x undo. subst undo. paths x.
  all: split; [intros err Hin; in_trace Hin; injection Hin as ->;
               split; by read_trace|].
  all: split; [intros err Hin; in_trace Hin; injection Hin as ->;
               split; by read_trace|].
  all: intros bld err Hin; in_trace Hin; injection Hin as -> ->;
       repeat split; by read_trace.
Qed.

Lemma failed_step_skips_the_rest_witness :
  invocations (events_of (_pipeline build_down_env test_input [] init))
    = [CheckoutAndBuild test_input; Rollback "1.2.3.4" "azureadmin";
       Notify "deploy failed: make build: exit status 2"]
  ∧ statuses (events_of (_pipeline deploy_down_env test_input [] init))
    = [BUILDING; TESTING; DEPLOYING; FAILED].
Proof.
  split; [|reflexivity].
  destruct (failed_step_skips_the_rest build_down_env test_input [] init)
    as (Hbuild & _).
  apply (Hbuild (ActivityError "make build: exit status 2")).
  apply list_elem_of_In. vm_compute. tauto.
Defined.

(** ** Pending redeploy requests *)

Lemma signalled_signal_events (batch : list DeployInput) :
  signalled (signal_events batch) = batch.
Proof.
  induction batch as [|i rest IH]; [done|].
  unfold signalled, signal_events in *. cbn. by rewrite IH.
Qed.

Ltac read_signals :=
  repeat first
    [ rewrite omap_app
    | rewrite signalled_signal_events
    | progress cbn ].

(** Decide, for each batch of a path, whether it was empty. *)
Ltac batches :=
  repeat match goal with
  | |- context [last ?b] =>
      is_var b;
      let E := fresh "E" in
      destruct (last b) eqn:E;
      [ destruct b; [discriminate E|]; clear E
      | apply last_None in E; subst b ];
      cbn
  end.

(** X10: A cycle never consumes or drops a pending redeploy request: after
    it, whether it returned or raised, the stored input is the last one
    signalled while it ran, or the one stored before when no signal came,
    and the flag is raised if it was raised or a signal came. *)
Theorem cycle_keeps_pending_requests (env : Env) (input : DeployInput)
    (h : list Event) (s : Workflow) :
  let x := _pipeline env input h s in
  _next_input (self_of x)
    = match last (signalled (events_of x)) with
      | Some i => Some i
      | None => _next_input s
      end
  ∧ _redeploy_requested (self_of x)
    = match last (signalled (events_of x)) with
      | Some _ => true
      | None => _redeploy_requested s
      end.
Proof.
  intros x. paths x.
  all: fold (signalled); read_signals; fold (signalled); read_signals.
  all: rewrite ?last_app.
  all: batches; done.
Qed.

(** ** The loop *)

Lemma bind_returns {S E A B} (m : M S E A) (k : A → M S E B)
    (h : list E) (s : S) (r : B) :
  result_of (bind m k h s) = Ok r →
  ∃ a s1 ev1, m h s = (Ok a, s1, ev1) ∧ result_of (k a (h ++ ev1) s1) = Ok r.
Proof.
  unfold bind, result_of.
  destruct (m h s) as [[[a| | |] s1] ev1]; cbn; try done.
  destruct (k a (h ++ ev1) s1) as [[r' s2] ev2] eqn:Hk; cbn.
  intros ->. exists a, s1, ev1. by rewrite Hk.
Qed.

Lemma serve_never_returns (env : Env) (input : DeployInput) (fuel : nat)
    (h : list Event) (s : Workflow) (r : DeployResult) :
  result_of (serve env fuel input h s) ≠ Ok r.
Proof.
  revert h s. induction fuel as [|n IH]; intros h s; [done|].
  cbn [serve]. intros (a & s1 & ev1 & _ & Hk)%bind_returns.
  by apply IH in Hk.
Qed.

(** X11: [run] never returns a result: whatever the fuel, it raises, parks in
    [wait_condition] or is still looping.  It ends at the first cycle
    that raises, be it the first deployment or a redeploy: the loop
    catches nothing, so a failed redeploy ends the workflow with the
    error of that cycle. *)
Theorem run_never_returns (env : Env) (input : DeployInput) (fuel : nat)
    (h : list Event) (s : Workflow) :
  (∀ r, result_of (run env fuel input h s) ≠ Ok r)
  ∧ (∀ e, target_host input ≠ "" →
          result_of (_pipeline env input h s) = Raise e →
          run env fuel input h s = _pipeline env input h s)
  ∧ (∀ e, result_of (redeploy_cycle env input h s) = Raise e →
          serve env (S fuel) input h s
            = (Raise e, self_of (redeploy_cycle env input h s),
               events_of (redeploy_cycle env input h s))).
Proof.
  split; [|split].
  - intros r. unfold run. destruct (negb (truthy (target_host input))); [done|].
    intros (a & s1 & ev1 & _ & Hk)%bind_returns.
    apply bind_returns in Hk as (? & s2 & ev2 & _ & Hk).
    by apply serve_never_returns in Hk.
  - intros e Hhost He. unfold run, truthy.
    apply String.eqb_neq in Hhost. rewrite Hhost. cbn.
    unfold bind at 1. unfold result_of in He.
    by destruct (_pipeline env input h s) as [[[?|?| |] ?] ?]; simplify_eq/=.
  - intros e He. cbn [serve]. unfold bind at 1. unfold result_of in He.
    by destruct (redeploy_cycle env input h s) as [[[?|?| |] ?] ?]; simplify_eq/=.
Qed.

(** X12: Without signals a run on a non-empty target host is one cycle, on
    the input it was started with: it then parks in [COMPLETED] with the
    result stored, having waited once, or it raises without ever
    waiting. *)
Theorem run_without_signals (env : Env) (input : DeployInput) (fuel : nat) :
  let x := run env (S fuel) input [] init in
  (∀ h, signals env h = []) →
  target_host input ≠ "" →
  cycles (events_of x) = [input]
  ∧ signalled (events_of x) = []
  ∧ ((result_of x = Parked
      ∧ _status (self_of x) = COMPLETED
      ∧ is_Some (_result (self_of x))
      ∧ waits (events_of x) = 1)
     ∨ ((∃ e, result_of x = Raise e)
        ∧ _status (self_of x) ≠ COMPLETED
        ∧ waits (events_of x) = 0)).
Proof.
  intros x Hquiet Hhost.
  assert (Hx : x = run env (S fuel) input [] init) by reflexivity.
  clearbody x. revert Hx.
  unfold run, truthy. apply String.eqb_neq in Hhost. rewrite Hhost.
  cbv [serve]; unfold_workflow; cbn.
  repeat (first [rewrite Hquiet | ask_runtime]; cbn).
  all: intros ->; cbn.
  all: split; [done|]; split; [done|].
  all: first [left; by repeat split | right; split; [by eexists|by split]].
Qed.

Lemma run_without_signals_witness :
  cycles (events_of (run (mock_env fixed_uuid no_signals) 1 test_input [] init))
    = [test_input].
Proof.
  refine (proj1 (run_without_signals (mock_env fixed_uuid no_signals)
                   test_input 0 _ _)).
  - reflexivity.
  - discriminate.
Defined.

(** ** The query and the build *)

(** X13: [get_deploy_details] shows the URL, the artifact and the health
    exactly when a result is stored; before that, and so on a fresh
    workflow, the dictionary holds the status and nothing else.  The
    query leaves the workflow as it found it. *)
Theorem deploy_details_fields (h : list Event) (s : Workflow) :
  ∃ d, get_deploy_details h s = (Ok d, s, [])
    ∧ d !! "status" = Some (PStr (value (_status s)))
    ∧ (_result s = None → d = {["status" := PStr (value (_status s))]})
    ∧ (∀ r, _result s = Some r →
         d !! "application_url" = Some (PStr (application_url r))
         ∧ d !! "artifact" = Some (PStr (artifact r))
         ∧ d !! "healthy" = Some (PBool (healthy r))
         ∧ dom d = {[ "status"; "application_url"; "artifact"; "healthy" ]})
    ∧ (is_Some (d !! "application_url") ↔ is_Some (_result s)).
Proof.
  unfold get_deploy_details, bind, get, ret; cbn.
  destruct (_result s) as [r|]; cbn; eexists; (split; [reflexivity|]).
  - split; [by repeat (rewrite lookup_insert_ne; [|done]);
               rewrite lookup_singleton_eq|].
    split; [done|]. split.
    + intros ? [= <-].
      repeat (split; [by repeat (rewrite lookup_insert_ne; [|done]);
                         rewrite ?lookup_insert_eq|]).
      rewrite !dom_insert_L, dom_singleton_L.
      apply set_eq. intros k. rewrite !elem_of_union, !elem_of_singleton. tauto.
    + split; [by eauto|]. intros _.
      rewrite lookup_insert_ne; [|done]. rewrite lookup_insert_ne; [|done].
      rewrite lookup_insert_eq. by eexists.
  - split; [by rewrite lookup_singleton_eq|].
    split; [done|]. split; [done|].
    rewrite lookup_singleton_ne; [|done].
    split; by intros [? ?].
Qed.

(** X14: The build names the artifact after the commit when the input pins
    one, whatever identifier is drawn; an absent commit and an empty one
    are the same to it, and the identifier drawn takes their place. *)
Theorem build_names_the_artifact (uuid8 : string) (input : DeployInput) :
  (∀ c, commit_sha input = Some c → c ≠ "" →
        artifact_name (checkout_and_build uuid8 input) = "app-" +:+ c +:+ ".tar.gz"
        ∧ build_commit_sha (checkout_and_build uuid8 input) = c
        ∧ ∀ other, checkout_and_build other input = checkout_and_build uuid8 input)
  ∧ (commit_sha input = None ∨ commit_sha input = Some "" →
       artifact_name (checkout_and_build uuid8 input) = "app-" +:+ uuid8 +:+ ".tar.gz"
       ∧ build_commit_sha (checkout_and_build uuid8 input) = uuid8)
  ∧ tests_passed (checkout_and_build uuid8 input) = 0
  ∧ tests_total (checkout_and_build uuid8 input) = 0.
Proof.
  unfold checkout_and_build, truthy. split; [|split; [|done]].
  - intros c -> Hc. cbn. by destruct (String.eqb_spec c "").
  - intros [-> | ->]; by cbn.
Qed.

(** ** A push while a deployment is in flight *)

(** X15: A redeploy signal that arrives while the first deploy activity is in
    flight is served as soon as the first cycle is over: unless that
    cycle fails (which ends the workflow), a second cycle runs on the
    signalled input with its target defaulted, and the workflow never
    waits before it: it has waited once when it finally parks and not at
    all when the second cycle fails. *)
Theorem signal_during_deploy_is_served (env : Env) (input sig : DeployInput)
    (fuel : nat) :
  let x := run env (S (S fuel)) input [] init in
  signals env = during_first_deploy [sig] →
  target_host input ≠ "" →
  ((∃ e, result_of x = Raise e) ∧ cycles (events_of x) = [input])
  ∨ (cycles (events_of x) = [input; default_target input sig]
     ∧ signalled (events_of x) = [sig]
     ∧ ((result_of x = Parked ∧ waits (events_of x) = 1)
        ∨ ((∃ e, result_of x = Raise e) ∧ waits (events_of x) = 0))).
Proof.
  intros x Hsig Hhost.
  assert (Hx : x = run env (S (S fuel)) input [] init) by reflexivity.
  clearbody x. revert Hx.
  unfold run, truthy. apply String.eqb_neq in Hhost. rewrite Hhost.
  cbv [serve]; unfold_workflow; cbn.
  repeat (first [rewrite Hsig; cbn; rewrite ?deliver_spec
                | ask_runtime]; cbn).
  all: intros ->; cbn.
  all: first
    [ left; split; [by eexists|done]
    | right; split; [done|]; split; [done|];
      first [left; by split | right; split; [by eexists|done]] ].
Qed.

Lemma signal_during_deploy_is_served_witness :
  cycles (events_of (run (mock_env fixed_uuid (during_first_deploy [push_signal]))
                       2 ops_input [] init))
    = [ops_input; default_target ops_input push_signal].
Proof.
  destruct (signal_during_deploy_is_served
              (mock_env fixed_uuid (during_first_deploy [push_signal]))
              ops_input push_signal 0) as [[_ Hc]|[Hc _]].
  - reflexivity.
  - discriminate.
  - discriminate Hc.
  - exact Hc.
Defined.

(** ** The redeploy command *)

(** X16: The signal [deploy.py redeploy] sends names neither host nor
    account, so the cycle it triggers runs on the host and the account of
    the first deployment: every deploy and every rollback of that cycle
    targets them, and the build runs on the signalled repository and
    branch. *)
Theorem redeploy_command_targets_first_host (env : Env) (input : DeployInput)
    (h : list Event) (s : Workflow) :
  let x := redeploy_cycle env input h s in
  _redeploy_requested s = true →
  _next_input s = Some Cli.redeploy_signal →
  cycles (events_of x)
    = [mkDeployInput "https://github.com/example/myapp.git" "main" None
         "make build" "make test" (target_host input) (admin_username input)]
  ∧ (∀ b t a, DeployArtifact b t a ∈ invocations (events_of x) →
              t = target_host input ∧ a = admin_username input)
  ∧ (∀ t a, (t, a) ∈ rollbacks (events_of x) →
            t = target_host input ∧ a = admin_username input).
Proof.
  intros x Hflag Hnext.
  assert (Hx : x = redeploy_cycle env input h s) by reflexivity.
  clearbody x. revert Hx.
  destruct s as [st res flag nxt]; cbn in Hflag, Hnext; subst flag nxt.
  pipeline_cases. all: intros ->; cbn.
  all: split; [by read_trace|].
  all: split; read_trace.
  all: intros; repeat match goal with
       | H : _ ∈ _ :: _ |- _ => apply elem_of_cons in H as [H|H]; [by simplify_eq|]
       | H : _ ∈ [] |- _ => by apply elem_of_nil in H
       end.
Qed.

Lemma redeploy_command_targets_first_host_witness :
  cycles (events_of (redeploy_cycle (mock_env fixed_uuid no_signals) ops_input []
                       (mkWorkflow COMPLETED None true (Some Cli.redeploy_signal))))
    = [mkDeployInput "https://github.com/example/myapp.git" "main" None
         "make build" "make test" "1.2.3.4" "ops"].
Proof.
  refine (proj1 (redeploy_command_targets_first_host
                   (mock_env fixed_uuid no_signals) ops_input []
                   (mkWorkflow COMPLETED None true (Some Cli.redeploy_signal))
                   _ _)); reflexivity.
Defined.
End CICDMore.

(** * Properties of the command-line clients *)

Module CliProofs.
Import Cli.

(** ** [deploy.py run]: finding the host *)

(** X17: Auto-discovery follows the readiness of the infra saga.  Queried in
    any state a provisioning run goes through, [deploy.py run] without
    a host starts the pipeline exactly when the saga is [READY], on the
    public address of the VM it stored; in every other state it prints
    the status it found and starts nothing. *)
Theorem discovery_follows_readiness (env : Infra.Env) (input : Infra.InfraInput)
    (s : Infra.Workflow) (h : list Infra.Event) (c : Client)
    (d : gmap string pyval) :
  s ∈ Infra.states Infra.init (events_of (Infra.run env input [] Infra.init)) →
  Infra.get_infra_output h s = (Ok d, s, []) →
  query_infra c = Done d →
  (Infra._status s = Infra.READY
   ∧ ∃ o, Infra._output s = Some o
       ∧ requested (run_deploy c None)
         = Some ("cicd-myapp-dev",
                 CICD.DeployInput_default "https://github.com/example/myapp.git"
                   (Infra.vm_public_ip o))
       ∧ head (printed (run_deploy c None))
         = Some ("found VM at " +:+ Infra.vm_public_ip o))
  ∨ (Infra._status s ≠ Infra.READY
     ∧ run_deploy c None
       = mkSession ["infra's not ready yet (status: "
                      +:+ Infra.value (Infra._status s) +:+ ")"]
                   None None).
Proof.
  intros Hs Hd Hq.
  pose proof (InfraProofs.ready_has_output env input s Hs) as Hinv.
  unfold Infra.get_infra_output, bind, get, ret in Hd; cbn in Hd.
  unfold run_deploy; cbn -[poll]. rewrite Hq.
  destruct (Infra._output s) as [o|] eqn:Ho; cbn in Hd; injection Hd as <-;
    cbn -[poll].
  - unfold get_truthy.
    repeat (rewrite lookup_insert_ne; [|done]). rewrite lookup_insert_eq.
    case_bool_decide as Hst.
    + left. split; [done|]. exists o. split; [done|].
      repeat (rewrite lookup_insert_ne; [|done]). rewrite lookup_insert_eq.
      unfold start_and_poll; cbn -[poll].
      destruct (start_workflow c _ _); [|done].
      match goal with |- context [poll c ?i 0 60] => by destruct (poll c i 0 60) end.
    + right. split; [done|].
      repeat (rewrite lookup_insert_ne; [|done]).
      by rewrite lookup_singleton_eq.
  - right. split; [by intros [? ?]%Hinv|].
    unfold get_truthy. rewrite lookup_insert_eq.
    rewrite lookup_insert_ne; [|done]. by rewrite lookup_singleton_eq.
Qed.

Lemma discovery_follows_readiness_witness :
  requested (run_deploy (mocked_client provisioned_answer) None)
    = Some ("cicd-myapp-dev",
            CICD.DeployInput_default "https://github.com/example/myapp.git"
              "20.185.72.14").
Proof.
  destruct (discovery_follows_readiness Infra.mock_env Infra.test_input
              provisioned [] (mocked_client provisioned_answer)
              (default ∅ (match provisioned_answer with
                          | Done d => Some d
                          | Fails _ => None
                          end)))
    as [(_ & o & Ho & Hreq & _)|[Hst _]].
  - apply list_elem_of_In. vm_compute. tauto.
  - reflexivity.
  - reflexivity.
  - injection Ho as <-. exact Hreq.
  - by destruct Hst.
Defined.


(** X18: With a host on the command line the infra saga is not consulted:
    the pipeline is started on that host whatever the infra query would
    answer.  An empty host counts as none.  Without a host and without
    an infra workflow to ask, the command prints a hint, starts nothing
    and ends normally. *)
Theorem host_resolution (c : Client) :
  (∀ t, t ≠ "" →
        requested (run_deploy c (Some t))
          = Some ("cicd-myapp-dev",
                  CICD.DeployInput_default "https://github.com/example/myapp.git" t)
        ∧ head (printed (run_deploy c (Some t)))
          = Some "starting pipeline: cicd-myapp-dev"
        ∧ ∀ infra,
            run_deploy (mkClient infra (start_workflow c) (query_details c)) (Some t)
            = run_deploy c (Some t))
  ∧ run_deploy c (Some "") = run_deploy c None
  ∧ (∀ e, query_infra c = Fails e →
          run_deploy c None
          = mkSession ["can't find infra workflow - has the infra team run 'python infra.py provision' yet?"]
                      None None).
Proof.
  split; [|split].
  - intros t Ht. unfold run_deploy, CICD.truthy.
    apply String.eqb_neq in Ht. rewrite Ht. cbn -[poll].
    unfold start_and_poll; cbn -[poll].
    split; [|split].
    + destruct (start_workflow c _ _); [|done].
      match goal with |- context [poll c ?i 0 60] => by destruct (poll c i 0 60) end.
    + destruct (start_workflow c _ _); [|done].
      match goal with |- context [poll c ?i 0 60] => by destruct (poll c i 0 60) end.
    + intros infra.
      assert (Hpoll : ∀ i k n,
                poll (mkClient infra (start_workflow c) (query_details c)) i k n
                = poll c i k n).
      { intros i k n. revert k. induction n as [|n IH]; intros k; [done|].
        cbn [poll query_details]. destruct (query_details c i k); [|done].
        by rewrite IH. }
      by rewrite Hpoll.
  - done.
  - intros e He. unfold run_deploy; cbn -[poll]. by rewrite He.
Qed.

(** ** [deploy.py run]: waiting for the deployment *)

Lemma poll_finds (c : Client) (input : CICD.DeployInput) (n k0 k : nat)
    (d : gmap string pyval) (url : string) (art : pyval) :
  k < n →
  (∀ j, j < k → ∃ dj, query_details c input (k0 + j) = Done dj
                    ∧ get_truthy dj "application_url" = false) →
  query_details c input (k0 + k) = Done d →
  d !! "application_url" = Some (PStr url) → url ≠ "" →
  d !! "artifact" = Some art →
  poll c input k0 n
    = ([newline +:+ "deployed!"; "  url: " +:+ url; "  artifact: " +:+ fmt art],
       None).
Proof.
  revert k0 k. induction n as [|n IH]; intros k0 k Hk Hbefore Hat Hurl Hne Hart;
    [lia|].
  cbn [poll]. destruct k as [|k].
  - rewrite Nat.add_0_r in Hat. rewrite Hat. unfold get_truthy.
    rewrite Hurl. apply String.eqb_neq in Hne. rewrite Hne. cbn.
    by rewrite Hart.
  - destruct (Hbefore 0) as (d0 & Hd0 & Hf0); [lia|].
    rewrite Nat.add_0_r in Hd0. rewrite Hd0, Hf0.
    apply (IH (S k0) k); [lia| | |done..].
    + intros j Hj. destruct (Hbefore (S j)) as (dj & Hdj & Hfj); [lia|].
      exists dj. by replace (S k0 + j) with (k0 + S j) by lia.
    + by replace (S k0 + k) with (k0 + S k) by lia.
Qed.

Lemma poll_times_out (c : Client) (input : CICD.DeployInput) (n k0 : nat) :
  (∀ j, j < n → ∃ dj, query_details c input (k0 + j) = Done dj
                    ∧ get_truthy dj "application_url" = false) →
  poll c input k0 n = (["timed out waiting for deploy to finish"], None).
Proof.
  revert k0. induction n as [|n IH]; intros k0 Hall; [done|].
  cbn [poll]. destruct (Hall 0) as (d0 & Hd0 & Hf0); [lia|].
  rewrite Nat.add_0_r in Hd0. rewrite Hd0, Hf0.
  apply IH. intros j Hj. destruct (Hall (S j)) as (dj & Hdj & Hfj); [lia|].
  exists dj. by replace (S k0 + j) with (k0 + S j) by lia.
Qed.

(** X19: The wait for the deployment is sixty queries at most.  It ends at
    the first query whose answer holds a non-empty URL, printing that
    URL and the artifact beside it; when none of the sixty answers holds
    one, it prints that it timed out.  The status in the answers plays
    no part. *)
Theorem polling_reports_first_result (c : Client) (input : CICD.DeployInput) :
  (∀ k d url art,
     k < 60 →
     (∀ j, j < k → ∃ dj, query_details c input j = Done dj
                       ∧ get_truthy dj "application_url" = false) →
     query_details c input k = Done d →
     d !! "application_url" = Some (PStr url) → url ≠ "" →
     d !! "artifact" = Some art →
     poll c input 0 60
       = ([newline +:+ "deployed!"; "  url: " +:+ url; "  artifact: " +:+ fmt art],
          None))
  ∧ ((∀ j, j < 60 → ∃ dj, query_details c input j = Done dj
                        ∧ get_truthy dj "application_url" = false) →
     poll c input 0 60 = (["timed out waiting for deploy to finish"], None)).
Proof.
  split.
  - intros k d url art Hk Hbefore Hat Hurl Hne Hart.
    by apply (poll_finds c input 60 0 k d url art).
  - intros Hall. by apply poll_times_out.
Qed.

Lemma polling_reports_first_result_witness :
  poll (slow_client (Fails (ActivityError "workflow not found")))
       CICD.test_input 0 60
    = ([newline +:+ "deployed!"; "  url: http://1.2.3.4:8080";
        "  artifact: app-0a1b2c3d.tar.gz"], None)
  ∧ poll stalled_client CICD.test_input 0 60
    = (["timed out waiting for deploy to finish"], None).
Proof.
  destruct (polling_reports_first_result
              (slow_client (Fails (ActivityError "workflow not found")))
              CICD.test_input) as [Hfound _].
  destruct (polling_reports_first_result stalled_client CICD.test_input)
    as [_ Hout].
  split.
  - eapply (Hfound 2 _ "http://1.2.3.4:8080" (PStr "app-0a1b2c3d.tar.gz")).
    + lia.
    + intros j Hj. exists {["status" := PStr "DEPLOYING"]}.
      destruct j as [|[|j]]; [by split|by split|lia].
    + reflexivity.
    + reflexivity.
    + discriminate.
    + reflexivity.
  - apply Hout. intros j _. exists {["status" := PStr "FAILED"]}. by split.
Defined.

(** ** End to end *)




(** ** The status commands *)

(** X21: [infra.py status] against an infra workflow in any state prints its
    status, and the line with the VM's name and address exactly when
    the workflow holds an output and is [READY]; when the workflow
    cannot be queried it prints the error instead. *)
Theorem infra_status_prints (s : Infra.Workflow) (h : list Infra.Event) :
  infra_status (answer_of (Infra.get_status h s))
               (answer_of (Infra.get_infra_output h s))
    = ("status: " +:+ Infra.value (Infra._status s))
      :: match Infra._output s with
         | Some o =>
             if bool_decide (Infra._status s = Infra.READY)
             then ["  VM: " +:+ Infra.vm_name o +:+ " @ " +:+ Infra.vm_public_ip o]
             else []
         | None => []
         end
  ∧ (∀ e q, infra_status (Fails e) q
            = ["not running or doesn't exist yet (" +:+ str e +:+ ")"])
  ∧ (∀ st e, infra_status (Done st) (Fails e)
             = ["not running or doesn't exist yet (" +:+ str e +:+ ")"]).
Proof.
  split; [|by split].
  unfold infra_status, answer_of, Infra.get_status, Infra.get_infra_output,
    bind, get, ret, result_of; cbn.
  destruct (Infra._output s) as [o|]; cbn; unfold get_truthy.
  - repeat (rewrite lookup_insert_ne; [|done]). rewrite lookup_insert_eq.
    case_bool_decide; [|done].
    repeat (rewrite lookup_insert_ne; [|done]). rewrite lookup_insert_eq.
    repeat (rewrite lookup_insert_ne; [|done]). by rewrite lookup_insert_eq.
  - by rewrite lookup_insert_eq.
Qed.

(** X22: [deploy.py status] against a pipeline workflow in any state prints
    its status, and the URL and the artifact exactly when a result with
    a non-empty URL is stored, also after a cycle that failed. *)
Theorem deploy_status_prints (s : CICD.Workflow) (h : list CICD.Event) :
  deploy_status (answer_of (CICD.get_deploy_details h s))
    = ("status: " +:+ CICD.value (CICD._status s))
      :: match CICD._result s with
         | Some r =>
             if CICD.truthy (CICD.application_url r)
             then ["  url: " +:+ CICD.application_url r;
                   "  artifact: " +:+ CICD.artifact r]
             else []
         | None => []
         end
  ∧ (∀ e, deploy_status (Fails e) = ["not running (" +:+ str e +:+ ")"]).
Proof.
  split; [|done].
  unfold deploy_status, answer_of, CICD.get_deploy_details,
    bind, get, ret, result_of; cbn.
  destruct (CICD._result s) as [r|]; cbn; unfold get_truthy, CICD.truthy.
  - repeat (rewrite lookup_insert_ne; [|done]). rewrite lookup_singleton_eq.
    repeat (rewrite lookup_insert_ne; [|done]). rewrite lookup_insert_eq.
    destruct (String.eqb (CICD.application_url r) ""); cbn; [done|].
    rewrite lookup_insert_ne; [|done]. by rewrite lookup_insert_eq.
  - rewrite lookup_singleton_eq. by rewrite lookup_singleton_ne.
Qed.
End CliProofs.
